(** * Slice nodes of the optimizer (nuitka/nodes/SliceNodes.py)

    A shallow embedding of the slice node family: the slice assignment and
    slice deletion statements, the slice lookup expression and the two
    built-in slice construction expressions, with their rewrite steps
    ([computeStatement], [computeExpression]), their may-raise queries and
    the construction factory.

    The nodes of other kinds, the trace collection, the subject's
    specialization hooks and the built-in specification matcher live in
    other modules of the compiler; they enter as the fields of the class
    [Collaborators].  The two statement making helpers of NodeMakingHelpers
    enter as the class [NodeMakingHelpers]. *)

From Stdlib Require Import ZArith List String Ascii Bool Lia.
Import ListNotations.

Local Open Scope string_scope.

Set Implicit Arguments.
Set Warnings "-register-all".

(** ** Data model *)

(** The source location tag carried by every node. *)
Definition SourceRef := nat.

(** Exception categories an exception-fact query is asked about;
    [BaseException] is the universal one. *)
Inductive ExceptionType : Type :=
| BaseException
| ExceptionNamed (name : string).

(** Expression nodes.  The kinds defined in SliceNodes.py have their named
    children, in the order of [named_children]; an optional slot is an
    [option].  [ExpressionOther] is a node of any other kind, told apart by
    its label. *)
Inductive Expression : Type :=
| ExpressionConstantNoneRef (source_ref : SourceRef)
| ExpressionSliceLookup (expression : Expression)
    (lower upper : option Expression) (source_ref : SourceRef)
| ExpressionBuiltinSlice3 (start stop step : Expression) (source_ref : SourceRef)
| ExpressionBuiltinSlice2 (start stop : Expression) (source_ref : SourceRef)
| ExpressionOther (label : nat) (source_ref : SourceRef).

Definition Expression_kind (node : Expression) : string :=
  match node with
  | ExpressionConstantNoneRef _ => "EXPRESSION_CONSTANT_NONE_REF"
  | ExpressionSliceLookup _ _ _ _ => "EXPRESSION_SLICE_LOOKUP"
  | ExpressionBuiltinSlice3 _ _ _ _ => "EXPRESSION_BUILTIN_SLICE3"
  | ExpressionBuiltinSlice2 _ _ _ => "EXPRESSION_BUILTIN_SLICE2"
  | ExpressionOther _ _ => "EXPRESSION_OTHER"
  end.

Definition Expression_getSourceReference (node : Expression) : SourceRef :=
  match node with
  | ExpressionConstantNoneRef r => r
  | ExpressionSliceLookup _ _ _ r => r
  | ExpressionBuiltinSlice3 _ _ _ r => r
  | ExpressionBuiltinSlice2 _ _ r => r
  | ExpressionOther _ r => r
  end.

Definition isExpressionConstantNoneRef (node : Expression) : bool :=
  match node with
  | ExpressionConstantNoneRef _ => true
  | _ => false
  end.

(** The child slots of a STATEMENT_ASSIGNMENT_SLICE node. *)
Module AssignmentSliceNode.
Record t : Type := make {
  subnode_source : Expression;
  subnode_expression : Expression;
  subnode_lower : option Expression;
  subnode_upper : option Expression;
  source_ref : SourceRef
}.

Definition set_source (value : Expression) (self : t) : t :=
  make value (subnode_expression self) (subnode_lower self)
    (subnode_upper self) (source_ref self).
Definition set_expression (value : Expression) (self : t) : t :=
  make (subnode_source self) value (subnode_lower self)
    (subnode_upper self) (source_ref self).
Definition set_lower (value : option Expression) (self : t) : t :=
  make (subnode_source self) (subnode_expression self) value
    (subnode_upper self) (source_ref self).
Definition set_upper (value : option Expression) (self : t) : t :=
  make (subnode_source self) (subnode_expression self)
    (subnode_lower self) value (source_ref self).
End AssignmentSliceNode.

(** The child slots of a STATEMENT_DEL_SLICE node. *)
Module DelSliceNode.
Record t : Type := make {
  subnode_expression : Expression;
  subnode_lower : option Expression;
  subnode_upper : option Expression;
  source_ref : SourceRef
}.

Definition set_expression (value : Expression) (self : t) : t :=
  make value (subnode_lower self) (subnode_upper self) (source_ref self).
Definition set_lower (value : option Expression) (self : t) : t :=
  make (subnode_expression self) value (subnode_upper self) (source_ref self).
Definition set_upper (value : option Expression) (self : t) : t :=
  make (subnode_expression self) (subnode_lower self) value (source_ref self).
End DelSliceNode.

(** The child slots of an EXPRESSION_SLICE_LOOKUP node. *)
Module SliceLookupNode.
Record t : Type := make {
  subnode_expression : Expression;
  subnode_lower : option Expression;
  subnode_upper : option Expression;
  source_ref : SourceRef
}.

Definition to_expression (self : t) : Expression :=
  ExpressionSliceLookup (subnode_expression self) (subnode_lower self)
    (subnode_upper self) (source_ref self).
End SliceLookupNode.

(** Statement nodes: the two slice statements, the evaluate-for-effect
    statement, the statement sequence, and any other statement. *)
Inductive Statement : Type :=
| StatementAssignmentSlice (self : AssignmentSliceNode.t)
| StatementDelSlice (self : DelSliceNode.t)
| StatementExpressionOnly (expression : Expression) (source_ref : SourceRef)
| StatementsSequence (statements : list Statement) (source_ref : SourceRef)
| StatementOther (label : nat) (source_ref : SourceRef).

Definition Statement_getSourceReference (node : Statement) : SourceRef :=
  match node with
  | StatementAssignmentSlice self => AssignmentSliceNode.source_ref self
  | StatementDelSlice self => DelSliceNode.source_ref self
  | StatementExpressionOnly _ r => r
  | StatementsSequence _ r => r
  | StatementOther _ r => r
  end.

(** The triple a rewrite step returns: the node to put in place (for a
    statement possibly none), the change tag and the description.  The step
    reports no change by answering the node itself with no tag. *)
Record Outcome (N : Type) : Type := outcome {
  new_node : N;
  change_tags : option string;
  change_desc : option string
}.

Definition ExpressionOutcome := Outcome Expression.
Definition StatementOutcome := Outcome (option Statement).

(** Faults of the optimizer itself, as opposed to the exceptions of the
    compiled program it reasons about. *)
Inductive InternalFault : Type :=
| AssertionError
| RequiredSlotAbsent.

Definition Fallible (A : Type) : Type := (InternalFault + A)%type.

Definition is_ok {A : Type} (r : Fallible A) : bool :=
  match r with
  | inr _ => true
  | inl _ => false
  end.

(** ** The collaborators of the slice nodes *)

(** What the slice nodes consume from the rest of the compiler: the trace
    collection, the rewrite step of a child ([computeExpressionRaw], which
    the trace collection invokes for it), the exception-fact queries of
    nodes whose kind is defined elsewhere, the three slice hooks of a
    subject, the shared built-in specification contract, and the target
    language version. *)
Class Collaborators : Type := {
  TraceCollection : Type;
  python_version : Z;
  computeExpressionRaw :
    Expression -> TraceCollection -> ExpressionOutcome * TraceCollection;
  willRaiseException : Expression -> ExceptionType -> bool;
  mayRaiseException_elsewhere : Expression -> ExceptionType -> bool;
  computeExpressionSetSlice :
    Expression -> AssignmentSliceNode.t -> option Expression ->
    option Expression -> Expression -> TraceCollection ->
    StatementOutcome * TraceCollection;
  computeExpressionDelSlice :
    Expression -> DelSliceNode.t -> option Expression ->
    option Expression -> TraceCollection ->
    StatementOutcome * TraceCollection;
  computeExpressionSlice :
    Expression -> SliceLookupNode.t -> option Expression ->
    option Expression -> TraceCollection ->
    ExpressionOutcome * TraceCollection;
  computeBuiltinSpec :
    Expression -> TraceCollection -> list Expression ->
    ExpressionOutcome * TraceCollection
}.

(** The statement making helpers imported from NodeMakingHelpers.  A Python
    tuple handed to [makeStatementOnlyNodesFromExpressions] may hold [None],
    so its elements are optional. *)
Class NodeMakingHelpers : Type := {
  makeStatementExpressionOnlyReplacementNode :
    Expression -> Statement -> Statement;
  makeStatementOnlyNodesFromExpressions :
    list (option Expression) -> Fallible Statement
}.

(** ** Rewrite steps as state passing

    A rewrite step runs against the trace collection and the node it
    belongs to, both of which it may update, and either faults or answers. *)
Section RewriteMonad.
Context {collaborators : Collaborators}.
Variable Node : Type.

Definition World : Type := (TraceCollection * Node)%type.

Definition Rewrite (A : Type) : Type := World -> Fallible (A * World).

Definition ret {A : Type} (a : A) : Rewrite A :=
  fun w => inr (a, w).

Definition bind {A B : Type} (m : Rewrite A) (k : A -> Rewrite B) : Rewrite B :=
  fun w =>
    match m w with
    | inl fault => inl fault
    | inr (a, w') => k a w'
    end.

Definition getSelf : Rewrite Node :=
  fun w => inr (snd w, w).

Definition liftFallible {A : Type} (r : Fallible A) : Rewrite A :=
  fun w =>
    match r with
    | inl fault => inl fault
    | inr a => inr (a, w)
    end.

(** A call that takes the trace collection and leaves the node alone. *)
Definition withTraceCollection {A : Type}
    (call : TraceCollection -> A * TraceCollection) : Rewrite A :=
  fun w => let (a, trace_collection) := call (fst w) in
           inr (a, (trace_collection, snd w)).

(** Modelled from the spec: [trace_collection.onExpression] of
    nuitka/optimizations/TraceCollections.py, which is not part of the
    sources at hand.  It optimizes a child and returns the child's current
    best form; the form is substituted in place, in the slot of the parent
    the child came from (the slot is named by its setter [replaceChild]).
    [StatementDelSlice.computeStatement] relies on the substitution: it
    drops the node returned for the upper bound and reads the slot again. *)
Definition onExpression (replaceChild : Expression -> Node -> Node)
    (expression : Expression) : Rewrite Expression :=
  fun w =>
    let (r, trace_collection) := computeExpressionRaw expression (fst w) in
    inr (new_node r, (trace_collection, replaceChild (new_node r) (snd w))).

(** Modelled from the spec: [trace_collection.onExpression] with
    [allow_none=True]; it returns absence when the slot is empty. *)
Definition onExpression_allow_none
    (replaceChild : option Expression -> Node -> Node)
    (expression : option Expression) : Rewrite (option Expression) :=
  match expression with
  | None => ret None
  | Some child =>
      bind (onExpression (fun value => replaceChild (Some value)) child)
           (fun value => ret (Some value))
  end.

End RewriteMonad.

Arguments ret {collaborators Node A} a.
Arguments bind {collaborators Node A B} m k.
Arguments getSelf {collaborators Node}.
Arguments liftFallible {collaborators Node A} r.
Arguments withTraceCollection {collaborators Node A} call.
Arguments onExpression {collaborators Node} replaceChild expression.
Arguments onExpression_allow_none {collaborators Node} replaceChild expression.

Declare Scope rewrite_scope.
Delimit Scope rewrite_scope with rewrite.
Notation "x <- m ;; k" := (bind m (fun x => k))
  (at level 61, m at next level, right associativity) : rewrite_scope.
Notation "m ;;; k" := (bind m (fun _ => k))
  (at level 61, right associativity) : rewrite_scope.

(** The form a child has after the trace collection optimized it, and the
    trace collection after that. *)
Definition refined {collaborators : Collaborators}
    (expression : Expression) (trace_collection : TraceCollection) : Expression :=
  new_node (fst (computeExpressionRaw expression trace_collection)).

Definition traced {collaborators : Collaborators}
    (expression : Expression) (trace_collection : TraceCollection) : TraceCollection :=
  snd (computeExpressionRaw expression trace_collection).

(** Python's [x is not None and x.willRaiseException(BaseException)]. *)
Definition willRaise_if_present {collaborators : Collaborators}
    (node : option Expression) : bool :=
  match node with
  | Some child => willRaiseException child BaseException
  | None => false
  end.

Local Open Scope rewrite_scope.

(** ** class StatementAssignmentSlice *)
Module StatementAssignmentSlice.
Import AssignmentSliceNode.

Definition kind : string := "STATEMENT_ASSIGNMENT_SLICE".
Definition named_children : list string :=
  ["source"; "expression"; "lower"; "upper"].

Section Methods.
Context {collaborators : Collaborators} {helpers : NodeMakingHelpers}.

Definition getLower (self : t) : option Expression := subnode_lower self.
Definition getUpper (self : t) : option Expression := subnode_upper self.

Definition __init__ (expression : Expression) (lower upper : option Expression)
    (source : Expression) (source_ref : SourceRef) : Fallible t :=
  if (python_version <? 300)%Z
  then inr (make source expression lower upper source_ref)
  else inl AssertionError.

Definition computeStatement : Rewrite t StatementOutcome :=
  self <- getSelf ;;
  source <- onExpression set_source (subnode_source self) ;;
  if willRaiseException source BaseException then
    self <- getSelf ;;
    let result :=
      makeStatementExpressionOnlyReplacementNode source
        (StatementAssignmentSlice self) in
    ret (outcome (Some result) (Some "new_raise")
      (Some "Slice assignment raises exception in assigned value, removed assignment."))
  else
  self <- getSelf ;;
  lookup_source <- onExpression set_expression (subnode_expression self) ;;
  if willRaiseException lookup_source BaseException then
    result <- liftFallible
      (makeStatementOnlyNodesFromExpressions
         [Some source; Some lookup_source]) ;;
    ret (outcome (Some result) (Some "new_raise")
      (Some "Slice assignment raises exception in sliced value, removed assignment."))
  else
  self <- getSelf ;;
  lower <- onExpression_allow_none set_lower (getLower self) ;;
  if willRaise_if_present lower then
    result <- liftFallible
      (makeStatementOnlyNodesFromExpressions
         [Some source; Some lookup_source; lower]) ;;
    ret (outcome (Some result) (Some "new_raise")
      (Some "Slice assignment raises exception in lower slice boundary value, removed assignment."))
  else
  self <- getSelf ;;
  upper <- onExpression_allow_none set_upper (getUpper self) ;;
  if willRaise_if_present upper then
    result <- liftFallible
      (makeStatementOnlyNodesFromExpressions
         [Some source; Some lookup_source; lower; upper]) ;;
    ret (outcome (Some result) (Some "new_raise")
      (Some "Slice assignment raises exception in upper slice boundary value, removed assignment."))
  else
  self <- getSelf ;;
  withTraceCollection
    (computeExpressionSetSlice lookup_source self lower upper source).

End Methods.
End StatementAssignmentSlice.

(** ** class StatementDelSlice *)
Module StatementDelSlice.
Import DelSliceNode.

Definition kind : string := "STATEMENT_DEL_SLICE".
Definition named_children : list string := ["expression"; "lower"; "upper"].

(** A line feed: the descriptions of the lower and upper cases open their
    triple-quoted text without a line continuation. *)
Definition newline : string := String (ascii_of_nat 10) EmptyString.

Section Methods.
Context {collaborators : Collaborators} {helpers : NodeMakingHelpers}.

Definition getLower (self : t) : option Expression := subnode_lower self.
Definition getUpper (self : t) : option Expression := subnode_upper self.

Definition __init__ (expression : Expression) (lower upper : option Expression)
    (source_ref : SourceRef) : Fallible t :=
  inr (make expression lower upper source_ref).

Definition computeStatement : Rewrite t StatementOutcome :=
  self <- getSelf ;;
  lookup_source <- onExpression set_expression (subnode_expression self) ;;
  if willRaiseException lookup_source BaseException then
    self <- getSelf ;;
    let result :=
      makeStatementExpressionOnlyReplacementNode lookup_source
        (StatementDelSlice self) in
    ret (outcome (Some result) (Some "new_raise")
      (Some "Slice del raises exception in sliced value, removed del"))
  else
  self <- getSelf ;;
  lower <- onExpression_allow_none set_lower (getLower self) ;;
  if willRaise_if_present lower then
    result <- liftFallible
      (makeStatementOnlyNodesFromExpressions [Some lookup_source; lower]) ;;
    ret (outcome (Some result) (Some "new_raise")
      (Some (newline ++
         "Slice del raises exception in lower slice boundary value, removed del")))
  else
  self <- getSelf ;;
  onExpression_allow_none set_upper (getUpper self) ;;;
  self <- getSelf ;;
  let upper := getUpper self in
  if willRaise_if_present upper then
    result <- liftFallible
      (makeStatementOnlyNodesFromExpressions
         [Some lookup_source; lower; upper]) ;;
    ret (outcome (Some result) (Some "new_raise")
      (Some (newline ++
         "Slice del raises exception in upper slice boundary value, removed del")))
  else
  self <- getSelf ;;
  withTraceCollection
    (computeExpressionDelSlice lookup_source self lower upper).

End Methods.
End StatementDelSlice.

(** ** Construction-time normalization of optional children *)

(** Modelled from the spec: [convertNoneConstantToNone] of NodeMakingHelpers,
    which is not part of the sources at hand: the fixed conversion rule that
    turns a present literal none node into the absent state of the slot and
    leaves every other value as it is. *)
Definition convertNoneConstantToNone (node : option Expression) : option Expression :=
  match node with
  | None => None
  | Some value => if isExpressionConstantNoneRef value then None else node
  end.

(** Modelled from the spec: the part of [ExpressionChildrenHavingBase.__init__]
    (not part of the sources at hand) that stores a supplied value in its
    slot: the checker the class declares for the slot, if any, is applied to
    the value, once, at construction. *)
Definition setChild
    (checkers : string -> option (option Expression -> option Expression))
    (name : string) (value : option Expression) : option Expression :=
  match checkers name with
  | Some checker => checker value
  | None => value
  end.

(** ** class ExpressionSliceLookup *)
Module ExpressionSliceLookup.
Import SliceLookupNode.

Definition kind : string := "EXPRESSION_SLICE_LOOKUP".
Definition named_children : list string := ["expression"; "lower"; "upper"].

Definition getLower (self : t) : option Expression := subnode_lower self.
Definition getUpper (self : t) : option Expression := subnode_upper self.

(** The dictionary [checkers], as the lookup of a slot name in it. *)
Definition checkers (name : string)
    : option (option Expression -> option Expression) :=
  if String.eqb name "upper" then Some convertNoneConstantToNone
  else if String.eqb name "lower" then Some convertNoneConstantToNone
  else None.

Definition isKnownToBeIterable (count : nat) : option bool := None.

Section Methods.
Context {collaborators : Collaborators}.

Definition __init__ (expression : Expression) (lower upper : option Expression)
    (source_ref : SourceRef) : Fallible t :=
  if (python_version <? 300)%Z
  then inr (make expression
              (setChild checkers "lower" lower)
              (setChild checkers "upper" upper)
              source_ref)
  else inl AssertionError.

Definition computeExpression : Rewrite t ExpressionOutcome :=
  self <- getSelf ;;
  let lookup_source := subnode_expression self in
  withTraceCollection
    (computeExpressionSlice lookup_source self (getLower self) (getUpper self)).

End Methods.
End ExpressionSliceLookup.

(** ** The may-raise query, dispatched on the kind of the node *)
Section MayRaise.
Context {collaborators : Collaborators}.

(** [node.mayRaiseException(exception_type)]: the two built-in slice kinds
    answer as SliceNodes.py defines, every other kind as its own module
    does. *)
Fixpoint mayRaiseException (node : Expression) (exception_type : ExceptionType)
    : bool :=
  match node with
  | ExpressionBuiltinSlice3 start stop step _ =>
      mayRaiseException start exception_type
      || mayRaiseException stop exception_type
      || mayRaiseException step exception_type
  | ExpressionBuiltinSlice2 start stop _ =>
      mayRaiseException start exception_type
      || mayRaiseException stop exception_type
  | _ => mayRaiseException_elsewhere node exception_type
  end.

End MayRaise.

(** ** class ExpressionBuiltinSliceMixin *)
Inductive TypeShape : Type :=
| tshape_slice
| tshape_unknown.

Module ExpressionBuiltinSliceMixin.

Definition getTypeShape : TypeShape := tshape_slice.

Definition isKnownToBeIterable (count : nat) : option bool := Some false.

Definition mayHaveSideEffects {collaborators : Collaborators}
    (self : Expression) : bool :=
  mayRaiseException self BaseException.

End ExpressionBuiltinSliceMixin.

(** ** class ExpressionBuiltinSlice3 *)
Module ExpressionBuiltinSlice3.

Definition kind : string := "EXPRESSION_BUILTIN_SLICE3".
Definition named_children : list string := ["start"; "stop"; "step"].

Record t : Type := make {
  subnode_start : Expression;
  subnode_stop : Expression;
  subnode_step : Expression;
  source_ref : SourceRef
}.

Definition to_expression (self : t) : Expression :=
  ExpressionBuiltinSlice3 (subnode_start self) (subnode_stop self)
    (subnode_step self) (source_ref self).

Definition __init__ (start stop step : Expression) (source_ref : SourceRef) : t :=
  make start stop step source_ref.

Section Methods.
Context {collaborators : Collaborators}.

Definition computeExpression : Rewrite t ExpressionOutcome :=
  self <- getSelf ;;
  withTraceCollection
    (fun trace_collection =>
       computeBuiltinSpec (to_expression self) trace_collection
         [subnode_start self; subnode_stop self; subnode_step self]).

Definition mayRaiseException (self : t) (exception_type : ExceptionType) : bool :=
  mayRaiseException (subnode_start self) exception_type
  || mayRaiseException (subnode_stop self) exception_type
  || mayRaiseException (subnode_step self) exception_type.

End Methods.
End ExpressionBuiltinSlice3.

(** ** class ExpressionBuiltinSlice2 *)
Module ExpressionBuiltinSlice2.

Definition kind : string := "EXPRESSION_BUILTIN_SLICE2".
Definition named_children : list string := ["start"; "stop"].

Record t : Type := make {
  subnode_start : Expression;
  subnode_stop : Expression;
  source_ref : SourceRef
}.

Definition to_expression (self : t) : Expression :=
  ExpressionBuiltinSlice2 (subnode_start self) (subnode_stop self)
    (source_ref self).

Definition __init__ (start stop : Expression) (source_ref : SourceRef) : t :=
  make start stop source_ref.

Section Methods.
Context {collaborators : Collaborators}.

Definition computeExpression : Rewrite t ExpressionOutcome :=
  self <- getSelf ;;
  withTraceCollection
    (fun trace_collection =>
       computeBuiltinSpec (to_expression self) trace_collection
         [subnode_start self; subnode_stop self]).

Definition mayRaiseException (self : t) (exception_type : ExceptionType) : bool :=
  mayRaiseException (subnode_start self) exception_type
  || mayRaiseException (subnode_stop self) exception_type.

End Methods.
End ExpressionBuiltinSlice2.

(** ** makeExpressionBuiltinSlice *)
Definition makeExpressionBuiltinSlice (start stop step : option Expression)
    (source_ref : SourceRef) : Expression :=
  let start :=
    match start with
    | None => ExpressionConstantNoneRef source_ref
    | Some value => value
    end in
  let stop :=
    match stop with
    | None => ExpressionConstantNoneRef source_ref
    | Some value => value
    end in
  match step with
  | None =>
      ExpressionBuiltinSlice2.to_expression
        (ExpressionBuiltinSlice2.__init__ start stop source_ref)
  | Some step =>
      ExpressionBuiltinSlice3.to_expression
        (ExpressionBuiltinSlice3.__init__ start stop step source_ref)
  end.

(** ** The statement making helpers, from the specification *)
Module FromSpec.

(** Modelled from the spec: [makeStatementExpressionOnlyReplacementNode] of
    NodeMakingHelpers, which is not part of the sources at hand: the single
    evaluate-for-effect statement for [expression], put at the source
    location of the node it replaces. *)
Definition makeStatementExpressionOnlyReplacementNode
    (expression : Expression) (node : Statement) : Statement :=
  StatementExpressionOnly expression (Statement_getSourceReference node).

(** Modelled from the spec: one evaluate-for-effect statement per element of
    the tuple, in order.  The expression is a required slot of such a
    statement, and a required slot left absent fails fast at construction. *)
Fixpoint makeStatementsExpressionOnly (expressions : list (option Expression))
    : Fallible (list Statement) :=
  match expressions with
  | [] => inr []
  | None :: _ => inl RequiredSlotAbsent
  | Some expression :: rest =>
      match makeStatementsExpressionOnly rest with
      | inl fault => inl fault
      | inr statements =>
          inr (StatementExpressionOnly expression
                 (Expression_getSourceReference expression) :: statements)
      end
  end.

(** Modelled from the spec: [makeStatementOnlyNodesFromExpressions] of
    NodeMakingHelpers, which is not part of the sources at hand: the ordered
    sequence of side-effect-only statements for the given expressions, at
    the source location of its first statement. *)
Definition makeStatementOnlyNodesFromExpressions
    (expressions : list (option Expression)) : Fallible Statement :=
  match makeStatementsExpressionOnly expressions with
  | inl fault => inl fault
  | inr statements =>
      inr (StatementsSequence statements
             (match statements with
              | first :: _ => Statement_getSourceReference first
              | [] => 0
              end))
  end.

Definition helpers : NodeMakingHelpers :=
  Build_NodeMakingHelpers
    makeStatementExpressionOnlyReplacementNode
    makeStatementOnlyNodesFromExpressions.

End FromSpec.

(** The expressions a replacement evaluates for their effect, in order: of a
    single evaluate-for-effect statement, or of a sequence of them.  Any
    other statement is not a side-effect-only replacement. *)
Definition expressionOnly (node : Statement) : option Expression :=
  match node with
  | StatementExpressionOnly expression _ => Some expression
  | _ => None
  end.

Fixpoint allExpressionOnly (statements : list Statement)
    : option (list Expression) :=
  match statements with
  | [] => Some []
  | node :: rest =>
      match expressionOnly node, allExpressionOnly rest with
      | Some expression, Some expressions => Some (expression :: expressions)
      | _, _ => None
      end
  end.

Definition evaluatedForEffect (node : Statement) : option (list Expression) :=
  match node with
  | StatementExpressionOnly expression _ => Some [expression]
  | StatementsSequence statements _ => allExpressionOnly statements
  | _ => None
  end.

(** The outcome that reports no change. *)
Definition unchanged {N : Type} (node : N) : Outcome N :=
  outcome node None None.

(** ** A concrete compilation setting, for evaluation

    The trace collection counts the children it optimized; optimizing a
    node of another kind whose label is 100 or more replaces it by the node
    labelled 100 less, and leaves any other node as it is; a node of another
    kind is proven to certainly
    raise when its label is in [raising]; may-raise is answered [true]
    exactly for those nodes; the hooks and the built-in specification
    contract answer that nothing changed. *)
Module Sample.

Definition labelled (raising : list nat) (node : Expression) : bool :=
  match node with
  | ExpressionOther label _ => existsb (Nat.eqb label) raising
  | _ => false
  end.

Definition optimize (expression : Expression) : ExpressionOutcome :=
  match expression with
  | ExpressionOther label source_ref =>
      if Nat.leb 100 label
      then outcome (ExpressionOther (label - 100) source_ref)
             (Some "new_expression") (Some "Replaced by its simpler form.")
      else unchanged expression
  | _ => unchanged expression
  end.

Definition collaborators (version : Z) (raising : list nat) : Collaborators :=
  {| TraceCollection := nat;
     python_version := version;
     computeExpressionRaw := fun expression count =>
       (optimize expression, S count);
     willRaiseException := fun node _ => labelled raising node;
     mayRaiseException_elsewhere := fun node _ => labelled raising node;
     computeExpressionSetSlice := fun _ set_node _ _ _ count =>
       (unchanged (Some (StatementAssignmentSlice set_node)), count);
     computeExpressionDelSlice := fun _ set_node _ _ count =>
       (unchanged (Some (StatementDelSlice set_node)), count);
     computeExpressionSlice := fun _ lookup_node _ _ count =>
       (unchanged (SliceLookupNode.to_expression lookup_node), count);
     computeBuiltinSpec := fun self count _ => (unchanged self, count) |}.

(** The children of the statements evaluated below: [v], [x], [a], [b]. *)
Definition v : Expression := ExpressionOther 1 10.
Definition x : Expression := ExpressionOther 2 11.
Definition a : Expression := ExpressionOther 3 12.
Definition b : Expression := ExpressionOther 4 13.
Definition b_unoptimized : Expression := ExpressionOther 104 13.

(** [x[a:b] = v] and [x[:b] = v]. *)
Definition assign_both : AssignmentSliceNode.t :=
  AssignmentSliceNode.make v x (Some a) (Some b) 20.
Definition assign_no_lower : AssignmentSliceNode.t :=
  AssignmentSliceNode.make v x None (Some b) 20.

(** [del x[a:b]] and [del x[:b]]. *)
Definition del_both : DelSliceNode.t :=
  DelSliceNode.make x (Some a) (Some b) 30.
Definition del_no_lower : DelSliceNode.t :=
  DelSliceNode.make x None (Some b) 30.
Definition del_unoptimized : DelSliceNode.t :=
  DelSliceNode.make x (Some a) (Some b_unoptimized) 30.

End Sample.

(** ** Vocabulary of the properties *)
Section Vocabulary.
Context {collaborators : Collaborators}.

Definition refined_if_present (expression : option Expression)
    (trace_collection : TraceCollection) : option Expression :=
  match expression with
  | Some child => Some (refined child trace_collection)
  | None => None
  end.

Definition traced_if_present (expression : option Expression)
    (trace_collection : TraceCollection) : TraceCollection :=
  match expression with
  | Some child => traced child trace_collection
  | None => trace_collection
  end.

Definition raise_in_assigned_value : string :=
  "Slice assignment raises exception in assigned value, removed assignment.".
Definition raise_in_sliced_value : string :=
  "Slice assignment raises exception in sliced value, removed assignment.".
Definition raise_in_lower_value : string :=
  "Slice assignment raises exception in lower slice boundary value, removed assignment.".
Definition raise_in_upper_value : string :=
  "Slice assignment raises exception in upper slice boundary value, removed assignment.".

(** The outcome of a certain raise: the statement [result] made by a helper,
    tagged "new_raise", with the description [why]. *)
Definition new_raise (why : string) {Node : Type}
    (made : Fallible Statement) : Rewrite Node StatementOutcome :=
  result <- liftFallible made ;;
  ret (outcome (Some result) (Some "new_raise") (Some why)).

Definition del_raise_in_sliced_value : string :=
  "Slice del raises exception in sliced value, removed del".
Definition del_raise_in_lower_value : string :=
  StatementDelSlice.newline ++
  "Slice del raises exception in lower slice boundary value, removed del".
Definition del_raise_in_upper_value : string :=
  StatementDelSlice.newline ++
  "Slice del raises exception in upper slice boundary value, removed del".

End Vocabulary.

(** ** Invoking a rewrite step again *)

(** [n] invocations of a step in a row, each from the trace collection and
    the node the one before left; the outcomes in order. *)
Fixpoint reinvoke {collaborators : Collaborators} {Node A : Type}
    (step : Rewrite Node A) (n : nat) : Rewrite Node (list A) :=
  match n with
  | O => ret []
  | S n' =>
      first <- step ;;
      others <- reinvoke step n' ;;
      ret (first :: others)
  end.

(** A child the trace collection leaves as it is, whenever it optimizes it. *)
Definition stable {collaborators : Collaborators} (child : Expression) : Prop :=
  forall trace_collection, refined child trace_collection = child.

Definition stable_if_present {collaborators : Collaborators}
    (child : option Expression) : Prop :=
  forall node, child = Some node -> stable node.

(** ** Nested slice constructions *)

(** The arguments of a tree of built-in slice constructions that are not
    slice constructions themselves, left to right. *)
Fixpoint builtinSliceArguments (node : Expression) : list Expression :=
  match node with
  | ExpressionBuiltinSlice3 start stop step _ =>
      builtinSliceArguments start ++ builtinSliceArguments stop
      ++ builtinSliceArguments step
  | ExpressionBuiltinSlice2 start stop _ =>
      builtinSliceArguments start ++ builtinSliceArguments stop
  | _ => [node]
  end.

(** The slots of a slice statement that hold a node, in evaluation order. *)
Definition assignmentChildren (self : AssignmentSliceNode.t) : list Expression :=
  [AssignmentSliceNode.subnode_source self;
   AssignmentSliceNode.subnode_expression self]
  ++ match AssignmentSliceNode.subnode_lower self with
     | Some child => [child]
     | None => []
     end
  ++ match AssignmentSliceNode.subnode_upper self with
     | Some child => [child]
     | None => []
     end.

Definition delChildren (self : DelSliceNode.t) : list Expression :=
  [DelSliceNode.subnode_expression self]
  ++ match DelSliceNode.subnode_lower self with
     | Some child => [child]
     | None => []
     end
  ++ match DelSliceNode.subnode_upper self with
     | Some child => [child]
     | None => []
     end.

(** * Properties *)

(** ** Running the steps of a rewrite *)
Section Running.
Context {collaborators : Collaborators}.
Variable Node : Type.

Lemma run_bind (A B : Type) (m : Rewrite Node A) (k : A -> Rewrite Node B)
    (w w' : World Node) (a : A) :
  m w = inr (a, w') -> bind m k w = k a w'.
Proof.
  intros E. unfold bind. now rewrite E.
Qed.

Lemma run_bind_fault (A B : Type) (m : Rewrite Node A)
    (k : A -> Rewrite Node B) (w : World Node) (fault : InternalFault) :
  m w = inl fault -> bind m k w = inl fault.
Proof.
  intros E. unfold bind. now rewrite E.
Qed.

Lemma run_getSelf (trace_collection : TraceCollection) (self : Node) :
  getSelf (trace_collection, self) = inr (self, (trace_collection, self)).
Proof. reflexivity. Qed.

Lemma run_onExpression (replaceChild : Expression -> Node -> Node)
    (expression : Expression) (trace_collection : TraceCollection)
    (self : Node) :
  onExpression replaceChild expression (trace_collection, self)
  = inr (refined expression trace_collection,
         (traced expression trace_collection,
          replaceChild (refined expression trace_collection) self)).
Proof.
  unfold onExpression, refined, traced. cbn [fst snd].
  now destruct (computeExpressionRaw expression trace_collection).
Qed.

Lemma run_onExpression_allow_none
    (replaceChild : option Expression -> Node -> Node)
    (expression : option Expression) (trace_collection : TraceCollection)
    (self : Node) :
  onExpression_allow_none replaceChild expression (trace_collection, self)
  = inr (refined_if_present expression trace_collection,
         (traced_if_present expression trace_collection,
          match expression with
          | Some _ =>
              replaceChild (refined_if_present expression trace_collection) self
          | None => self
          end)).
Proof.
  destruct expression as [child|]; cbn; [|reflexivity].
  unfold bind. now rewrite run_onExpression.
Qed.

Lemma run_withTraceCollection (A : Type)
    (call : TraceCollection -> A * TraceCollection)
    (trace_collection : TraceCollection) (self : Node) :
  withTraceCollection call (trace_collection, self)
  = inr (fst (call trace_collection), (snd (call trace_collection), self)).
Proof.
  unfold withTraceCollection. cbn [fst snd].
  now destruct (call trace_collection).
Qed.

End Running.

Arguments run_bind {collaborators Node A B m} k {w w' a} _.
Arguments run_bind_fault {collaborators Node A B m} k {w fault} _.

(** One step of a rewrite whose head is a known call. *)
Ltac run_step :=
  first
    [ rewrite (run_bind _ (run_getSelf _ _))
    | rewrite (run_bind _ (run_onExpression _ _ _ _))
    | rewrite (run_bind _ (run_onExpression_allow_none _ _ _ _))
    | rewrite run_withTraceCollection ].

Ltac node_simpl :=
  cbn [StatementDelSlice.getLower StatementDelSlice.getUpper
       DelSliceNode.subnode_expression DelSliceNode.subnode_lower
       DelSliceNode.subnode_upper DelSliceNode.source_ref
       DelSliceNode.set_expression DelSliceNode.set_lower
       DelSliceNode.set_upper
       StatementAssignmentSlice.getLower StatementAssignmentSlice.getUpper
       AssignmentSliceNode.subnode_source
       AssignmentSliceNode.subnode_expression
       AssignmentSliceNode.subnode_lower AssignmentSliceNode.subnode_upper
       AssignmentSliceNode.source_ref AssignmentSliceNode.set_source
       AssignmentSliceNode.set_expression AssignmentSliceNode.set_lower
       AssignmentSliceNode.set_upper
       refined_if_present traced_if_present willRaise_if_present] in *.

(** Runs a rewrite as far as the facts at hand decide its tests. *)
Ltac run_rewrite :=
  repeat first
    [ run_step
    | progress node_simpl
    | match goal with
      | H : willRaiseException ?e ?c = _ |- context [willRaiseException ?e ?c] =>
          rewrite H
      end ].

(** ** The slice assignment statement *)
Section AssignmentSlice.
Context {collaborators : Collaborators} {helpers : NodeMakingHelpers}.
Import AssignmentSliceNode.

Lemma assignment_source_raises (self : t) (tc : TraceCollection) :
  let source := refined (subnode_source self) tc in
  let tc1 := traced (subnode_source self) tc in
  willRaiseException source BaseException = true ->
  StatementAssignmentSlice.computeStatement (tc, self)
  = inr (outcome
           (Some (makeStatementExpressionOnlyReplacementNode source
                    (StatementAssignmentSlice (set_source source self))))
           (Some "new_raise") (Some raise_in_assigned_value),
         (tc1, set_source source self)).
Proof.
  destruct self as [v x l u r]. cbv zeta. intros H.
  unfold StatementAssignmentSlice.computeStatement.
  run_rewrite. reflexivity.
Qed.

Lemma assignment_subject_raises (self : t) (tc : TraceCollection) :
  let source := refined (subnode_source self) tc in
  let tc1 := traced (subnode_source self) tc in
  let subject := refined (subnode_expression self) tc1 in
  let tc2 := traced (subnode_expression self) tc1 in
  willRaiseException source BaseException = false ->
  willRaiseException subject BaseException = true ->
  StatementAssignmentSlice.computeStatement (tc, self)
  = new_raise raise_in_sliced_value
      (makeStatementOnlyNodesFromExpressions [Some source; Some subject])
      (tc2, set_expression subject (set_source source self)).
Proof.
  destruct self as [v x l u r]. cbv zeta. intros H1 H2.
  unfold StatementAssignmentSlice.computeStatement.
  run_rewrite. reflexivity.
Qed.

Lemma assignment_lower_raises (self : t) (tc : TraceCollection)
    (a : Expression) :
  subnode_lower self = Some a ->
  let source := refined (subnode_source self) tc in
  let tc1 := traced (subnode_source self) tc in
  let subject := refined (subnode_expression self) tc1 in
  let tc2 := traced (subnode_expression self) tc1 in
  let lower := refined a tc2 in
  let tc3 := traced a tc2 in
  willRaiseException source BaseException = false ->
  willRaiseException subject BaseException = false ->
  willRaiseException lower BaseException = true ->
  StatementAssignmentSlice.computeStatement (tc, self)
  = new_raise raise_in_lower_value
      (makeStatementOnlyNodesFromExpressions
         [Some source; Some subject; Some lower])
      (tc3, make source subject (Some lower) (subnode_upper self)
              (source_ref self)).
Proof.
  destruct self as [v x l u r]. cbv zeta. node_simpl. intros -> H1 H2 H3.
  unfold StatementAssignmentSlice.computeStatement.
  run_rewrite. reflexivity.
Qed.

Lemma assignment_upper_raises (self : t) (tc : TraceCollection)
    (b : Expression) :
  subnode_upper self = Some b ->
  let source := refined (subnode_source self) tc in
  let tc1 := traced (subnode_source self) tc in
  let subject := refined (subnode_expression self) tc1 in
  let tc2 := traced (subnode_expression self) tc1 in
  let lower := refined_if_present (subnode_lower self) tc2 in
  let tc3 := traced_if_present (subnode_lower self) tc2 in
  let upper := refined b tc3 in
  let tc4 := traced b tc3 in
  willRaiseException source BaseException = false ->
  willRaiseException subject BaseException = false ->
  willRaise_if_present lower = false ->
  willRaiseException upper BaseException = true ->
  StatementAssignmentSlice.computeStatement (tc, self)
  = new_raise raise_in_upper_value
      (makeStatementOnlyNodesFromExpressions
         [Some source; Some subject; lower; Some upper])
      (tc4, make source subject lower (Some upper) (source_ref self)).
Proof.
  destruct self as [v x [a|] u r]; cbv zeta; node_simpl; intros -> H1 H2 H3 H4;
    unfold StatementAssignmentSlice.computeStatement;
    run_rewrite; reflexivity.
Qed.

Lemma assignment_delegates (self : t) (tc : TraceCollection) :
  let source := refined (subnode_source self) tc in
  let tc1 := traced (subnode_source self) tc in
  let subject := refined (subnode_expression self) tc1 in
  let tc2 := traced (subnode_expression self) tc1 in
  let lower := refined_if_present (subnode_lower self) tc2 in
  let tc3 := traced_if_present (subnode_lower self) tc2 in
  let upper := refined_if_present (subnode_upper self) tc3 in
  let tc4 := traced_if_present (subnode_upper self) tc3 in
  let self' := make source subject lower upper (source_ref self) in
  willRaiseException source BaseException = false ->
  willRaiseException subject BaseException = false ->
  willRaise_if_present lower = false ->
  willRaise_if_present upper = false ->
  StatementAssignmentSlice.computeStatement (tc, self)
  = withTraceCollection
      (computeExpressionSetSlice subject self' lower upper source)
      (tc4, self').
Proof.
  destruct self as [v x [a|] [b|] r]; cbv zeta; node_simpl;
    intros H1 H2 H3 H4;
    unfold StatementAssignmentSlice.computeStatement;
    run_rewrite; reflexivity.
Qed.

End AssignmentSlice.

(** ** The slice deletion statement *)
Section DelSlice.
Context {collaborators : Collaborators} {helpers : NodeMakingHelpers}.
Import DelSliceNode.

Lemma del_subject_raises (self : t) (tc : TraceCollection) :
  let subject := refined (subnode_expression self) tc in
  let tc1 := traced (subnode_expression self) tc in
  willRaiseException subject BaseException = true ->
  StatementDelSlice.computeStatement (tc, self)
  = inr (outcome
           (Some (makeStatementExpressionOnlyReplacementNode subject
                    (StatementDelSlice (set_expression subject self))))
           (Some "new_raise") (Some del_raise_in_sliced_value),
         (tc1, set_expression subject self)).
Proof.
  destruct self as [x l u r]. cbv zeta. intros H.
  unfold StatementDelSlice.computeStatement.
  run_rewrite. reflexivity.
Qed.

Lemma del_lower_raises (self : t) (tc : TraceCollection) (a : Expression) :
  subnode_lower self = Some a ->
  let subject := refined (subnode_expression self) tc in
  let tc1 := traced (subnode_expression self) tc in
  let lower := refined a tc1 in
  let tc2 := traced a tc1 in
  willRaiseException subject BaseException = false ->
  willRaiseException lower BaseException = true ->
  StatementDelSlice.computeStatement (tc, self)
  = new_raise del_raise_in_lower_value
      (makeStatementOnlyNodesFromExpressions [Some subject; Some lower])
      (tc2, make subject (Some lower) (subnode_upper self) (source_ref self)).
Proof.
  destruct self as [x l u r]. cbv zeta. node_simpl. intros -> H1 H2.
  unfold StatementDelSlice.computeStatement.
  run_rewrite. reflexivity.
Qed.

(** The upper bound is optimized through the trace collection, and then read
    back from its slot. *)
Lemma del_upper_raises (self : t) (tc : TraceCollection) (b : Expression) :
  subnode_upper self = Some b ->
  let subject := refined (subnode_expression self) tc in
  let tc1 := traced (subnode_expression self) tc in
  let lower := refined_if_present (subnode_lower self) tc1 in
  let tc2 := traced_if_present (subnode_lower self) tc1 in
  let upper := refined b tc2 in
  let tc3 := traced b tc2 in
  willRaiseException subject BaseException = false ->
  willRaise_if_present lower = false ->
  willRaiseException upper BaseException = true ->
  StatementDelSlice.computeStatement (tc, self)
  = new_raise del_raise_in_upper_value
      (makeStatementOnlyNodesFromExpressions
         [Some subject; lower; Some upper])
      (tc3, make subject lower (Some upper) (source_ref self)).
Proof.
  destruct self as [x [a|] u r]; cbv zeta; node_simpl; intros -> H1 H2 H3;
    unfold StatementDelSlice.computeStatement;
    run_rewrite; reflexivity.
Qed.

Lemma del_delegates (self : t) (tc : TraceCollection) :
  let subject := refined (subnode_expression self) tc in
  let tc1 := traced (subnode_expression self) tc in
  let lower := refined_if_present (subnode_lower self) tc1 in
  let tc2 := traced_if_present (subnode_lower self) tc1 in
  let upper := refined_if_present (subnode_upper self) tc2 in
  let tc3 := traced_if_present (subnode_upper self) tc2 in
  let self' := make subject lower upper (source_ref self) in
  willRaiseException subject BaseException = false ->
  willRaise_if_present lower = false ->
  willRaise_if_present upper = false ->
  StatementDelSlice.computeStatement (tc, self)
  = withTraceCollection
      (computeExpressionDelSlice subject self' lower upper)
      (tc3, self').
Proof.
  destruct self as [x [a|] [b|] r]; cbv zeta; node_simpl;
    intros H1 H2 H3;
    unfold StatementDelSlice.computeStatement;
    run_rewrite; reflexivity.
Qed.

End DelSlice.

(** ** Replacements made with the helpers of the specification *)
Section WithSpecHelpers.
Context {collaborators : Collaborators}.

Local Abbreviation assignment_computeStatement :=
  (StatementAssignmentSlice.computeStatement (helpers := FromSpec.helpers)).
Local Abbreviation del_computeStatement :=
  (StatementDelSlice.computeStatement (helpers := FromSpec.helpers)).

(** Where every slot up to the raising child holds a node, the replacement
    of a slice assignment evaluates the refined children up to and including
    the raising one, in evaluation order, and nothing after it. *)
Lemma assignment_raise_prefix (self : AssignmentSliceNode.t)
    (tc : TraceCollection) :
  let source := refined (AssignmentSliceNode.subnode_source self) tc in
  let tc1 := traced (AssignmentSliceNode.subnode_source self) tc in
  let subject := refined (AssignmentSliceNode.subnode_expression self) tc1 in
  let tc2 := traced (AssignmentSliceNode.subnode_expression self) tc1 in
  (willRaiseException source BaseException = true ->
   exists result w,
     assignment_computeStatement (tc, self)
     = inr (outcome (Some result) (Some "new_raise")
              (Some raise_in_assigned_value), w)
     /\ evaluatedForEffect result = Some [source])
  /\
  (willRaiseException source BaseException = false ->
   willRaiseException subject BaseException = true ->
   exists result w,
     assignment_computeStatement (tc, self)
     = inr (outcome (Some result) (Some "new_raise")
              (Some raise_in_sliced_value), w)
     /\ evaluatedForEffect result = Some [source; subject])
  /\
  (forall a : Expression,
   AssignmentSliceNode.subnode_lower self = Some a ->
   let lower := refined a tc2 in
   let tc3 := traced a tc2 in
   willRaiseException source BaseException = false ->
   willRaiseException subject BaseException = false ->
   (willRaiseException lower BaseException = true ->
    exists result w,
      assignment_computeStatement (tc, self)
      = inr (outcome (Some result) (Some "new_raise")
               (Some raise_in_lower_value), w)
      /\ evaluatedForEffect result = Some [source; subject; lower])
   /\
   (forall b : Expression,
    AssignmentSliceNode.subnode_upper self = Some b ->
    let upper := refined b tc3 in
    willRaiseException lower BaseException = false ->
    willRaiseException upper BaseException = true ->
    exists result w,
      assignment_computeStatement (tc, self)
      = inr (outcome (Some result) (Some "new_raise")
               (Some raise_in_upper_value), w)
      /\ evaluatedForEffect result = Some [source; subject; lower; upper])).
Proof.
  cbv zeta. split; [|split].
  - intros H. rewrite (assignment_source_raises self tc H).
    eexists. eexists. split; reflexivity.
  - intros H1 H2. rewrite (assignment_subject_raises self tc H1 H2).
    eexists. eexists. split; reflexivity.
  - intros a Ha H1 H2. split.
    + intros H3. rewrite (assignment_lower_raises self tc Ha H1 H2 H3).
      eexists. eexists. split; reflexivity.
    + intros b Hb H3 H4.
      rewrite (assignment_upper_raises self tc Hb H1 H2); rewrite Ha;
        node_simpl; [|assumption..].
      eexists. eexists. split; reflexivity.
Qed.

(** With the lower slot absent and the upper bound certain to raise, no
    replacement is made for a slice assignment: the tuple handed to the
    helper holds the absent slot, for which no evaluate-for-effect statement
    can be built. *)
Lemma assignment_absent_lower_faults (self : AssignmentSliceNode.t)
    (tc : TraceCollection) (b : Expression) :
  AssignmentSliceNode.subnode_lower self = None ->
  AssignmentSliceNode.subnode_upper self = Some b ->
  let source := refined (AssignmentSliceNode.subnode_source self) tc in
  let tc1 := traced (AssignmentSliceNode.subnode_source self) tc in
  let subject := refined (AssignmentSliceNode.subnode_expression self) tc1 in
  let tc2 := traced (AssignmentSliceNode.subnode_expression self) tc1 in
  let upper := refined b tc2 in
  willRaiseException source BaseException = false ->
  willRaiseException subject BaseException = false ->
  willRaiseException upper BaseException = true ->
  assignment_computeStatement (tc, self) = inl RequiredSlotAbsent.
Proof.
  cbv zeta. intros Ha Hb H1 H2 H3.
  rewrite (assignment_upper_raises self tc Hb H1 H2); rewrite Ha; node_simpl;
    [reflexivity..|assumption].
Qed.

Lemma del_absent_lower_faults (self : DelSliceNode.t)
    (tc : TraceCollection) (b : Expression) :
  DelSliceNode.subnode_lower self = None ->
  DelSliceNode.subnode_upper self = Some b ->
  let subject := refined (DelSliceNode.subnode_expression self) tc in
  let tc1 := traced (DelSliceNode.subnode_expression self) tc in
  let upper := refined b tc1 in
  willRaiseException subject BaseException = false ->
  willRaiseException upper BaseException = true ->
  del_computeStatement (tc, self) = inl RequiredSlotAbsent.
Proof.
  cbv zeta. intros Ha Hb H1 H2.
  rewrite (del_upper_raises self tc Hb H1); rewrite Ha; node_simpl;
    [reflexivity..|assumption].
Qed.

End WithSpecHelpers.

(** ** The properties of the specification *)

(** C1. The slice assignment [x[:b] = v], whose lower slot is absent and
    whose upper bound [b] is proven to certainly raise while [v] and [x] are
    not: the rewrite makes no replacement evaluating [v], [x], [b]; it
    faults, because the tuple it hands on holds the absent lower slot. *)
Theorem assignment_no_lower_upper_raises_no_replacement :
  StatementAssignmentSlice.computeStatement
    (collaborators := Sample.collaborators 270 [4])
    (helpers := FromSpec.helpers)
    (0, Sample.assign_no_lower)
  = inl RequiredSlotAbsent.
Proof.
  apply (assignment_absent_lower_faults
           (collaborators := Sample.collaborators 270 [4])
           Sample.assign_no_lower 0 (b := Sample.b));
    reflexivity.
Qed.

(** C2. The slice deletion [del x[:b]], whose lower slot is absent and
    whose upper bound [b] alone is proven to certainly raise: the rewrite
    makes no replacement evaluating the subject and then the upper bound and
    answers no "new_raise"; it faults, because the tuple it hands on holds
    the absent lower slot. *)
Theorem del_no_lower_upper_raises_no_replacement :
  StatementDelSlice.computeStatement
    (collaborators := Sample.collaborators 270 [4])
    (helpers := FromSpec.helpers)
    (0, Sample.del_no_lower)
  = inl RequiredSlotAbsent.
Proof.
  apply (del_absent_lower_faults
           (collaborators := Sample.collaborators 270 [4])
           Sample.del_no_lower 0 (b := Sample.b));
    reflexivity.
Qed.

(** X13. A slice deletion whose refined subject is proven to certainly raise
    is replaced by the evaluation of the subject alone, the bounds being
    neither refined nor kept; a slice deletion [del x[a:b]] of which only the
    refined upper bound is proven to certainly raise is replaced by the
    evaluation of the subject, then the lower bound, then the upper bound;
    both outcomes are tagged "new_raise" and hold no deletion. *)
Theorem del_slice_certain_raise (collaborators : Collaborators) :
  (forall (self : DelSliceNode.t) (tc : TraceCollection),
     let subject := refined (DelSliceNode.subnode_expression self) tc in
     let tc1 := traced (DelSliceNode.subnode_expression self) tc in
     willRaiseException subject BaseException = true ->
     exists result,
       StatementDelSlice.computeStatement (helpers := FromSpec.helpers)
         (tc, self)
       = inr (outcome (Some result) (Some "new_raise")
                (Some del_raise_in_sliced_value),
              (tc1, DelSliceNode.set_expression subject self))
       /\ evaluatedForEffect result = Some [subject])
  /\
  (forall (self : DelSliceNode.t) (tc : TraceCollection) (a b : Expression),
     DelSliceNode.subnode_lower self = Some a ->
     DelSliceNode.subnode_upper self = Some b ->
     let subject := refined (DelSliceNode.subnode_expression self) tc in
     let tc1 := traced (DelSliceNode.subnode_expression self) tc in
     let lower := refined a tc1 in
     let tc2 := traced a tc1 in
     let upper := refined b tc2 in
     let tc3 := traced b tc2 in
     willRaiseException subject BaseException = false ->
     willRaiseException lower BaseException = false ->
     willRaiseException upper BaseException = true ->
     exists result,
       StatementDelSlice.computeStatement (helpers := FromSpec.helpers)
         (tc, self)
       = inr (outcome (Some result) (Some "new_raise")
                (Some del_raise_in_upper_value),
              (tc3, DelSliceNode.make subject (Some lower) (Some upper)
                      (DelSliceNode.source_ref self)))
       /\ evaluatedForEffect result = Some [subject; lower; upper]).
Proof.
  split.
  - cbv zeta. intros self tc H.
    rewrite (del_subject_raises self tc H).
    eexists. split; reflexivity.
  - cbv zeta. intros self tc a b Ha Hb H1 H2 H3.
    rewrite (del_upper_raises self tc Hb H1); rewrite Ha; node_simpl;
      [|assumption..].
    eexists. split; reflexivity.
Qed.

Lemma del_slice_certain_raise_witness :
  exists result,
    StatementDelSlice.computeStatement
      (collaborators := Sample.collaborators 270 [4])
      (helpers := FromSpec.helpers) (0, Sample.del_unoptimized)
    = inr (outcome (Some result) (Some "new_raise")
             (Some del_raise_in_upper_value),
           (3, Sample.del_both))
    /\ evaluatedForEffect result = Some [Sample.x; Sample.a; Sample.b].
Proof.
  exact (proj2 (del_slice_certain_raise (Sample.collaborators 270 [4]))
           Sample.del_unoptimized 0 Sample.a Sample.b_unoptimized
           eq_refl eq_refl eq_refl eq_refl eq_refl).
Defined.

(** C10. When the lower slot of a slice assignment or of a slice deletion
    is absent and the refined upper bound is proven to certainly raise, the
    tuple handed to [makeStatementOnlyNodesFromExpressions] holds the absent
    lower slot, as [None], between the refined children before it and the
    upper bound; this for every helper. *)
Theorem absent_lower_kept_in_tuple (collaborators : Collaborators)
    (helpers : NodeMakingHelpers) :
  (forall (self : AssignmentSliceNode.t) (tc : TraceCollection)
          (b : Expression),
     AssignmentSliceNode.subnode_lower self = None ->
     AssignmentSliceNode.subnode_upper self = Some b ->
     let source := refined (AssignmentSliceNode.subnode_source self) tc in
     let tc1 := traced (AssignmentSliceNode.subnode_source self) tc in
     let subject := refined (AssignmentSliceNode.subnode_expression self) tc1 in
     let tc2 := traced (AssignmentSliceNode.subnode_expression self) tc1 in
     let upper := refined b tc2 in
     let tc3 := traced b tc2 in
     willRaiseException source BaseException = false ->
     willRaiseException subject BaseException = false ->
     willRaiseException upper BaseException = true ->
     StatementAssignmentSlice.computeStatement (tc, self)
     = new_raise raise_in_upper_value
         (makeStatementOnlyNodesFromExpressions
            [Some source; Some subject; None; Some upper])
         (tc3, AssignmentSliceNode.make source subject None (Some upper)
                 (AssignmentSliceNode.source_ref self)))
  /\
  (forall (self : DelSliceNode.t) (tc : TraceCollection) (b : Expression),
     DelSliceNode.subnode_lower self = None ->
     DelSliceNode.subnode_upper self = Some b ->
     let subject := refined (DelSliceNode.subnode_expression self) tc in
     let tc1 := traced (DelSliceNode.subnode_expression self) tc in
     let upper := refined b tc1 in
     let tc2 := traced b tc1 in
     willRaiseException subject BaseException = false ->
     willRaiseException upper BaseException = true ->
     StatementDelSlice.computeStatement (tc, self)
     = new_raise del_raise_in_upper_value
         (makeStatementOnlyNodesFromExpressions
            [Some subject; None; Some upper])
         (tc2, DelSliceNode.make subject None (Some upper)
                 (DelSliceNode.source_ref self))).
Proof.
  split.
  - cbv zeta. intros self tc b Ha Hb H1 H2 H3.
    rewrite (assignment_upper_raises self tc Hb H1 H2); rewrite Ha;
      node_simpl; [reflexivity..|assumption].
  - cbv zeta. intros self tc b Ha Hb H1 H2.
    rewrite (del_upper_raises self tc Hb H1); rewrite Ha;
      node_simpl; [reflexivity..|assumption].
Qed.

Lemma absent_lower_kept_in_tuple_witness :
  StatementDelSlice.computeStatement
    (collaborators := Sample.collaborators 270 [4])
    (helpers := FromSpec.helpers) (0, Sample.del_no_lower)
  = new_raise (collaborators := Sample.collaborators 270 [4])
      del_raise_in_upper_value
      (FromSpec.makeStatementOnlyNodesFromExpressions
         [Some Sample.x; None; Some Sample.b])
      (2, Sample.del_no_lower).
Proof.
  exact (proj2 (absent_lower_kept_in_tuple
                  (Sample.collaborators 270 [4]) FromSpec.helpers)
           Sample.del_no_lower 0 Sample.b
           eq_refl eq_refl eq_refl eq_refl).
Defined.

(** C8, as the claim states it, fails.  The slice assignment [x[a:b] = v]
    whose assigned value [v] is proven to certainly raise, each child being
    left as it is by the trace collection: invoked twice in a row, the
    rewrite step answers "new_raise" both times, not "unchanged"; the node
    keeps its children, and the trace collection each call leaves is not
    the one it was given. *)
Lemma certain_raise_is_reported_each_time :
  let replacement :=
    outcome (Some (StatementExpressionOnly Sample.v 20)) (Some "new_raise")
      (Some raise_in_assigned_value) in
  reinvoke
    (StatementAssignmentSlice.computeStatement
       (collaborators := Sample.collaborators 270 [1])
       (helpers := FromSpec.helpers))
    2 (0, Sample.assign_both)
  = inr ([replacement; replacement], (2, Sample.assign_both))
  /\ replacement <> unchanged (Some (StatementAssignmentSlice Sample.assign_both))
  /\ stable (collaborators := Sample.collaborators 270 [1]) Sample.v
  /\ stable (collaborators := Sample.collaborators 270 [1]) Sample.x
  /\ stable (collaborators := Sample.collaborators 270 [1]) Sample.a
  /\ stable (collaborators := Sample.collaborators 270 [1]) Sample.b.
Proof.
  cbv zeta. split; [reflexivity|].
  split; [discriminate|].
  repeat split; intros tc; reflexivity.
Qed.

(** A step that answers [answer] and keeps the node, from whatever trace
    collection, does so each time it is invoked again. *)
Lemma reinvoke_same_answer (collaborators : Collaborators) (Node A : Type)
    (step : Rewrite Node A) (self : Node) (answer : A) :
  (forall tc, exists tc', step (tc, self) = inr (answer, (tc', self))) ->
  forall (n : nat) (tc : TraceCollection),
  exists tc' : TraceCollection,
    reinvoke step n (tc, self) = inr (repeat answer n, (tc', self)).
Proof.
  intros Step. induction n as [|n IH]; intros tc.
  - exists tc. reflexivity.
  - destruct (Step tc) as [tc1 E1]. destruct (IH tc1) as [tc2 E2].
    exists tc2. cbn [reinvoke repeat].
    now rewrite (run_bind _ E1), (run_bind _ E2).
Qed.

Lemma refined_if_present_stable (collaborators : Collaborators)
    (child : option Expression) (tc : TraceCollection) :
  stable_if_present child -> refined_if_present child tc = child.
Proof.
  intros S. destruct child as [node|]; [|reflexivity].
  cbn. now rewrite (S node eq_refl tc).
Qed.

(** C8, amended.  A node of the slice family whose children the trace
    collection leaves as they are, none of them proven to certainly raise
    where the step asks, and for which the subject's hook (for a slice
    construction: the built-in specification contract) answers "unchanged":
    every one of any number of invocations in a row answers "unchanged" and
    the node keeps its children; besides its answer an invocation changes
    at most the trace collection. *)
Theorem unchanged_rewrite_repeats (collaborators : Collaborators)
    (helpers : NodeMakingHelpers) :
  (forall self : AssignmentSliceNode.t,
     stable (AssignmentSliceNode.subnode_source self) ->
     stable (AssignmentSliceNode.subnode_expression self) ->
     stable_if_present (AssignmentSliceNode.subnode_lower self) ->
     stable_if_present (AssignmentSliceNode.subnode_upper self) ->
     willRaiseException (AssignmentSliceNode.subnode_source self)
       BaseException = false ->
     willRaiseException (AssignmentSliceNode.subnode_expression self)
       BaseException = false ->
     willRaise_if_present (AssignmentSliceNode.subnode_lower self) = false ->
     willRaise_if_present (AssignmentSliceNode.subnode_upper self) = false ->
     (forall tc,
        fst (computeExpressionSetSlice
               (AssignmentSliceNode.subnode_expression self) self
               (AssignmentSliceNode.subnode_lower self)
               (AssignmentSliceNode.subnode_upper self)
               (AssignmentSliceNode.subnode_source self) tc)
        = unchanged (Some (StatementAssignmentSlice self))) ->
     forall (n : nat) (tc : TraceCollection),
     exists tc' : TraceCollection,
       reinvoke StatementAssignmentSlice.computeStatement n (tc, self)
       = inr (repeat (unchanged (Some (StatementAssignmentSlice self))) n,
              (tc', self)))
  /\
  (forall self : DelSliceNode.t,
     stable (DelSliceNode.subnode_expression self) ->
     stable_if_present (DelSliceNode.subnode_lower self) ->
     stable_if_present (DelSliceNode.subnode_upper self) ->
     willRaiseException (DelSliceNode.subnode_expression self)
       BaseException = false ->
     willRaise_if_present (DelSliceNode.subnode_lower self) = false ->
     willRaise_if_present (DelSliceNode.subnode_upper self) = false ->
     (forall tc,
        fst (computeExpressionDelSlice
               (DelSliceNode.subnode_expression self) self
               (DelSliceNode.subnode_lower self)
               (DelSliceNode.subnode_upper self) tc)
        = unchanged (Some (StatementDelSlice self))) ->
     forall (n : nat) (tc : TraceCollection),
     exists tc' : TraceCollection,
       reinvoke StatementDelSlice.computeStatement n (tc, self)
       = inr (repeat (unchanged (Some (StatementDelSlice self))) n,
              (tc', self)))
  /\
  (forall self : SliceLookupNode.t,
     (forall tc,
        fst (computeExpressionSlice
               (SliceLookupNode.subnode_expression self) self
               (SliceLookupNode.subnode_lower self)
               (SliceLookupNode.subnode_upper self) tc)
        = unchanged (SliceLookupNode.to_expression self)) ->
     forall (n : nat) (tc : TraceCollection),
     exists tc' : TraceCollection,
       reinvoke ExpressionSliceLookup.computeExpression n (tc, self)
       = inr (repeat (unchanged (SliceLookupNode.to_expression self)) n,
              (tc', self)))
  /\
  (forall self : ExpressionBuiltinSlice3.t,
     (forall tc,
        fst (computeBuiltinSpec (ExpressionBuiltinSlice3.to_expression self) tc
               [ExpressionBuiltinSlice3.subnode_start self;
                ExpressionBuiltinSlice3.subnode_stop self;
                ExpressionBuiltinSlice3.subnode_step self])
        = unchanged (ExpressionBuiltinSlice3.to_expression self)) ->
     forall (n : nat) (tc : TraceCollection),
     exists tc' : TraceCollection,
       reinvoke ExpressionBuiltinSlice3.computeExpression n (tc, self)
       = inr (repeat (unchanged (ExpressionBuiltinSlice3.to_expression self)) n,
              (tc', self)))
  /\
  (forall self : ExpressionBuiltinSlice2.t,
     (forall tc,
        fst (computeBuiltinSpec (ExpressionBuiltinSlice2.to_expression self) tc
               [ExpressionBuiltinSlice2.subnode_start self;
                ExpressionBuiltinSlice2.subnode_stop self])
        = unchanged (ExpressionBuiltinSlice2.to_expression self)) ->
     forall (n : nat) (tc : TraceCollection),
     exists tc' : TraceCollection,
       reinvoke ExpressionBuiltinSlice2.computeExpression n (tc, self)
       = inr (repeat (unchanged (ExpressionBuiltinSlice2.to_expression self)) n,
              (tc', self))).
Proof.
  repeat split.
  - intros self Sv Sx Sa Sb Rv Rx Ra Rb Hook.
    apply reinvoke_same_answer. intros tc.
    destruct self as [v x l u r]. node_simpl.
    rewrite assignment_delegates;
      cbn [AssignmentSliceNode.subnode_source
           AssignmentSliceNode.subnode_expression
           AssignmentSliceNode.subnode_lower
           AssignmentSliceNode.subnode_upper
           AssignmentSliceNode.source_ref];
      rewrite ?Sv, ?Sx, ?(refined_if_present_stable _ Sa),
        ?(refined_if_present_stable _ Sb);
      try assumption.
    rewrite run_withTraceCollection, Hook. eexists. reflexivity.
  - intros self Sx Sa Sb Rx Ra Rb Hook.
    apply reinvoke_same_answer. intros tc.
    destruct self as [x l u r]. node_simpl.
    rewrite del_delegates;
      cbn [DelSliceNode.subnode_expression DelSliceNode.subnode_lower
           DelSliceNode.subnode_upper DelSliceNode.source_ref];
      rewrite ?Sx, ?(refined_if_present_stable _ Sa),
        ?(refined_if_present_stable _ Sb);
      try assumption.
    rewrite run_withTraceCollection, Hook. eexists. reflexivity.
  - intros self Hook.
    apply reinvoke_same_answer. intros tc.
    unfold ExpressionSliceLookup.computeExpression.
    rewrite (run_bind _ (run_getSelf _ _)), run_withTraceCollection.
    unfold ExpressionSliceLookup.getLower, ExpressionSliceLookup.getUpper.
    rewrite Hook. eexists. reflexivity.
  - intros self Spec.
    apply reinvoke_same_answer. intros tc.
    unfold ExpressionBuiltinSlice3.computeExpression.
    rewrite (run_bind _ (run_getSelf _ _)), run_withTraceCollection, Spec.
    eexists. reflexivity.
  - intros self Spec.
    apply reinvoke_same_answer. intros tc.
    unfold ExpressionBuiltinSlice2.computeExpression.
    rewrite (run_bind _ (run_getSelf _ _)), run_withTraceCollection, Spec.
    eexists. reflexivity.
Qed.

Lemma unchanged_rewrite_repeats_witness :
  exists count : nat,
    reinvoke
      (StatementAssignmentSlice.computeStatement
         (collaborators := Sample.collaborators 270 [])
         (helpers := FromSpec.helpers))
      2 (0, Sample.assign_both)
    = inr (repeat (unchanged (Some (StatementAssignmentSlice Sample.assign_both))) 2,
           (count, Sample.assign_both)).
Proof.
  apply (proj1 (unchanged_rewrite_repeats
                  (Sample.collaborators 270 []) FromSpec.helpers)
           Sample.assign_both).
  - intros tc. reflexivity.
  - intros tc. reflexivity.
  - intros node E tc. injection E as <-. reflexivity.
  - intros node E tc. injection E as <-. reflexivity.
  - reflexivity.
  - reflexivity.
  - reflexivity.
  - reflexivity.
  - intros tc. reflexivity.
Defined.

(** C7. A slice lookup that was constructed has, in its lower and in its
    upper slot, what the conversion rule makes of the supplied value: a
    supplied literal none node is the absent state, anything else is kept,
    and no slot holds a literal none node.  The conversion is made at
    construction only: the rewrite step of any slice lookup node, were it
    one holding a literal none node, hands the slots to the subject's hook
    as they are and leaves the node as it is; so the constructed node holds
    the same slots after any number of rewrite steps. *)
Theorem slice_lookup_bounds_normalized_once (collaborators : Collaborators)
    (expression : Expression) (lower upper : option Expression)
    (source_ref : SourceRef) (self : SliceLookupNode.t) :
  ExpressionSliceLookup.__init__ expression lower upper source_ref = inr self ->
  (SliceLookupNode.subnode_lower self = convertNoneConstantToNone lower
   /\ SliceLookupNode.subnode_upper self = convertNoneConstantToNone upper)
  /\ (forall r, lower = Some (ExpressionConstantNoneRef r) ->
                SliceLookupNode.subnode_lower self = None)
  /\ (forall r, upper = Some (ExpressionConstantNoneRef r) ->
                SliceLookupNode.subnode_upper self = None)
  /\ (forall node, isExpressionConstantNoneRef node = false ->
                   (lower = Some node ->
                    SliceLookupNode.subnode_lower self = Some node)
                   /\ (upper = Some node ->
                       SliceLookupNode.subnode_upper self = Some node))
  /\ (forall node, SliceLookupNode.subnode_lower self = Some node
                   \/ SliceLookupNode.subnode_upper self = Some node ->
                   isExpressionConstantNoneRef node = false)
  /\ (forall (held : SliceLookupNode.t) (tc : TraceCollection),
        ExpressionSliceLookup.computeExpression (tc, held)
        = inr (fst (computeExpressionSlice
                      (SliceLookupNode.subnode_expression held) held
                      (SliceLookupNode.subnode_lower held)
                      (SliceLookupNode.subnode_upper held) tc),
               (snd (computeExpressionSlice
                       (SliceLookupNode.subnode_expression held) held
                       (SliceLookupNode.subnode_lower held)
                       (SliceLookupNode.subnode_upper held) tc),
                held)))
  /\ (forall (n : nat) (tc : TraceCollection),
        exists (answers : list ExpressionOutcome) (tc' : TraceCollection),
          reinvoke ExpressionSliceLookup.computeExpression n (tc, self)
          = inr (answers, (tc', self))
          /\ List.length answers = n).
Proof.
  assert (Step : forall (held : SliceLookupNode.t) (tc : TraceCollection),
    ExpressionSliceLookup.computeExpression (tc, held)
    = inr (fst (computeExpressionSlice
                  (SliceLookupNode.subnode_expression held) held
                  (SliceLookupNode.subnode_lower held)
                  (SliceLookupNode.subnode_upper held) tc),
           (snd (computeExpressionSlice
                   (SliceLookupNode.subnode_expression held) held
                   (SliceLookupNode.subnode_lower held)
                   (SliceLookupNode.subnode_upper held) tc),
            held))).
  { intros held tc. unfold ExpressionSliceLookup.computeExpression.
    now rewrite (run_bind _ (run_getSelf _ _)), run_withTraceCollection. }
  unfold ExpressionSliceLookup.__init__.
  destruct (python_version <? 300)%Z; [|discriminate].
  intros E. injection E as <-.
  cbn [SliceLookupNode.subnode_lower SliceLookupNode.subnode_upper
       SliceLookupNode.subnode_expression].
  change (setChild ExpressionSliceLookup.checkers "lower" lower)
    with (convertNoneConstantToNone lower).
  change (setChild ExpressionSliceLookup.checkers "upper" upper)
    with (convertNoneConstantToNone upper).
  split; [split; reflexivity|].
  split; [intros r ->; reflexivity|].
  split; [intros r ->; reflexivity|].
  split.
  { intros node Hn. split; intros ->; cbn; now rewrite Hn. }
  split.
  { intros node [H|H].
    - destruct lower as [value|]; cbn in H; [|discriminate].
      destruct (isExpressionConstantNoneRef value) eqn:Hv; [discriminate|].
      now injection H as <-.
    - destruct upper as [value|]; cbn in H; [|discriminate].
      destruct (isExpressionConstantNoneRef value) eqn:Hv; [discriminate|].
      now injection H as <-. }
  split; [exact Step|].
  induction n as [|n IH]; intros tc.
  - exists [], tc. split; reflexivity.
  - destruct (IH (snd (computeExpressionSlice expression
                         (SliceLookupNode.make expression
                            (convertNoneConstantToNone lower)
                            (convertNoneConstantToNone upper) source_ref)
                         (convertNoneConstantToNone lower)
                         (convertNoneConstantToNone upper) tc)))
      as [answers [tc' [E L]]].
    eexists (_ :: answers), tc'. cbn [reinvoke].
    rewrite (run_bind _ (Step _ tc)).
    cbn [SliceLookupNode.subnode_lower SliceLookupNode.subnode_upper
         SliceLookupNode.subnode_expression].
    rewrite (run_bind _ E). split; [reflexivity|].
    cbn [List.length]. now rewrite L.
Qed.

Lemma slice_lookup_bounds_normalized_once_witness :
  ExpressionSliceLookup.__init__
    (collaborators := Sample.collaborators 270 [])
    Sample.x (Some (ExpressionConstantNoneRef 41)) (Some Sample.b) 40
  = inr (SliceLookupNode.make Sample.x None (Some Sample.b) 40)
  /\ SliceLookupNode.subnode_lower
       (SliceLookupNode.make Sample.x None (Some Sample.b) 40)
     = convertNoneConstantToNone (Some (ExpressionConstantNoneRef 41))
  /\ SliceLookupNode.subnode_upper
       (SliceLookupNode.make Sample.x None (Some Sample.b) 40)
     = convertNoneConstantToNone (Some Sample.b).
Proof.
  split; [reflexivity|].
  exact (proj1 (slice_lookup_bounds_normalized_once
                  (Sample.collaborators 270 [])
                  Sample.x (Some (ExpressionConstantNoneRef 41))
                  (Some Sample.b) 40 eq_refl)).
Defined.

(** C9. Constructing a slice assignment statement or a slice lookup
    expression succeeds exactly when the target language version is below
    300, and fails with the assertion otherwise; constructing a slice
    deletion statement succeeds whatever the version. *)
Theorem version_asserted_at_construction (collaborators : Collaborators)
    (expression : Expression) (lower upper : option Expression)
    (source : Expression) (source_ref : SourceRef) :
  (((python_version < 300)%Z <->
    exists self,
      StatementAssignmentSlice.__init__ expression lower upper source
        source_ref = inr self)
   /\ ((300 <= python_version)%Z <->
       StatementAssignmentSlice.__init__ expression lower upper source
         source_ref = inl AssertionError))
  /\
  (((python_version < 300)%Z <->
    exists self,
      ExpressionSliceLookup.__init__ expression lower upper source_ref
      = inr self)
   /\ ((300 <= python_version)%Z <->
       ExpressionSliceLookup.__init__ expression lower upper source_ref
       = inl AssertionError))
  /\
  StatementDelSlice.__init__ expression lower upper source_ref
  = inr (DelSliceNode.make expression lower upper source_ref).
Proof.
  unfold StatementAssignmentSlice.__init__, ExpressionSliceLookup.__init__.
  destruct (Z.ltb_spec python_version 300) as [Hlt|Hge].
  - repeat split; try (intros; eexists; reflexivity);
      try (intros; assumption); try lia; try discriminate.
  - repeat split; try (intros [self E]; discriminate);
      try (intros; reflexivity); try (intros; assumption); try lia.
Qed.

Lemma version_asserted_at_construction_witness :
  StatementAssignmentSlice.__init__
    (collaborators := Sample.collaborators 380 [])
    Sample.x (Some Sample.a) (Some Sample.b) Sample.v 20
  = inl AssertionError.
Proof.
  apply (proj2 (proj1 (version_asserted_at_construction
                         (Sample.collaborators 380 [])
                         Sample.x (Some Sample.a) (Some Sample.b)
                         Sample.v 20))).
  - cbn. lia.
Defined.

(** C4. The factory answers the 2-argument kind when the step is absent and
    the 3-argument kind when a step is supplied, a literal none node
    included, with the supplied step as its step child; in both, an absent
    start or stop is a constant none node and a supplied one is itself. *)
Theorem makeExpressionBuiltinSlice_selects_kind
    (start stop step : option Expression) (source_ref : SourceRef) :
  exists start_child stop_child : Expression,
    (start = None -> start_child = ExpressionConstantNoneRef source_ref)
    /\ (forall value, start = Some value -> start_child = value)
    /\ (stop = None -> stop_child = ExpressionConstantNoneRef source_ref)
    /\ (forall value, stop = Some value -> stop_child = value)
    /\ (step = None ->
        makeExpressionBuiltinSlice start stop step source_ref
        = ExpressionBuiltinSlice2 start_child stop_child source_ref)
    /\ (forall value, step = Some value ->
        makeExpressionBuiltinSlice start stop step source_ref
        = ExpressionBuiltinSlice3 start_child stop_child value source_ref)
    /\ (Expression_kind (makeExpressionBuiltinSlice start stop step source_ref)
        = ExpressionBuiltinSlice2.kind <-> step = None)
    /\ (Expression_kind (makeExpressionBuiltinSlice start stop step source_ref)
        = ExpressionBuiltinSlice3.kind <-> exists value, step = Some value)
    /\ (forall r,
        Expression_kind
          (makeExpressionBuiltinSlice start stop
             (Some (ExpressionConstantNoneRef r)) source_ref)
        = ExpressionBuiltinSlice3.kind).
Proof.
  exists (match start with
          | None => ExpressionConstantNoneRef source_ref
          | Some value => value
          end),
         (match stop with
          | None => ExpressionConstantNoneRef source_ref
          | Some value => value
          end).
  unfold ExpressionBuiltinSlice2.kind, ExpressionBuiltinSlice3.kind.
  destruct start as [s|], stop as [t|], step as [p|]; cbn;
    repeat split; intros; try reflexivity; try discriminate;
    try congruence; try (eexists; reflexivity);
    try (match goal with H : exists _, _ |- _ => destruct H; discriminate end);
    match goal with H : Some _ = Some _ |- _ => now injection H as <- end.
Qed.

(** C5. The may-raise answer of a 3-argument slice construction for a
    category is true exactly when that of its start, of its stop or of its
    step is; the one of a 2-argument slice construction exactly when that of
    its start or of its stop is.  The answer a node gives when asked
    through its kind is the one of its class. *)
Theorem builtin_slice_mayRaiseException_is_or (collaborators : Collaborators)
    (exception_type : ExceptionType) :
  (forall self : ExpressionBuiltinSlice3.t,
     (ExpressionBuiltinSlice3.mayRaiseException self exception_type = true
      <-> (mayRaiseException (ExpressionBuiltinSlice3.subnode_start self)
             exception_type = true
           \/ mayRaiseException (ExpressionBuiltinSlice3.subnode_stop self)
                exception_type = true
           \/ mayRaiseException (ExpressionBuiltinSlice3.subnode_step self)
                exception_type = true))
     /\ mayRaiseException (ExpressionBuiltinSlice3.to_expression self)
          exception_type
        = ExpressionBuiltinSlice3.mayRaiseException self exception_type)
  /\
  (forall self : ExpressionBuiltinSlice2.t,
     (ExpressionBuiltinSlice2.mayRaiseException self exception_type = true
      <-> (mayRaiseException (ExpressionBuiltinSlice2.subnode_start self)
             exception_type = true
           \/ mayRaiseException (ExpressionBuiltinSlice2.subnode_stop self)
                exception_type = true))
     /\ mayRaiseException (ExpressionBuiltinSlice2.to_expression self)
          exception_type
        = ExpressionBuiltinSlice2.mayRaiseException self exception_type).
Proof.
  split; intros self; (split; [|reflexivity]).
  - unfold ExpressionBuiltinSlice3.mayRaiseException.
    rewrite !orb_true_iff. tauto.
  - unfold ExpressionBuiltinSlice2.mayRaiseException.
    now rewrite orb_true_iff.
Qed.

(** C6. The rewrite step of a slice lookup answers what the slice hook of
    its subject answers for the node and the children its lower and upper
    slots hold, on the trace collection as it was given: no child is
    optimized first, the node is left as it is, and this whatever is proven
    to certainly raise. *)
Theorem slice_lookup_delegates_to_subject (collaborators : Collaborators)
    (self : SliceLookupNode.t) (tc : TraceCollection) :
  ExpressionSliceLookup.computeExpression (tc, self)
  = inr (fst (computeExpressionSlice
                (SliceLookupNode.subnode_expression self) self
                (SliceLookupNode.subnode_lower self)
                (SliceLookupNode.subnode_upper self) tc),
         (snd (computeExpressionSlice
                 (SliceLookupNode.subnode_expression self) self
                 (SliceLookupNode.subnode_lower self)
                 (SliceLookupNode.subnode_upper self) tc),
          self)).
Proof.
  unfold ExpressionSliceLookup.computeExpression.
  rewrite (run_bind _ (run_getSelf _ _)), run_withTraceCollection.
  reflexivity.
Qed.

(** * Further properties of the code *)

(** ** The rewrite of a slice statement, case by case *)
Section StatementCases.
Context {collaborators : Collaborators} {helpers : NodeMakingHelpers}.

Lemma assignment_run (self : AssignmentSliceNode.t) (tc : TraceCollection) :
  let source := refined (AssignmentSliceNode.subnode_source self) tc in
  let tc1 := traced (AssignmentSliceNode.subnode_source self) tc in
  let subject := refined (AssignmentSliceNode.subnode_expression self) tc1 in
  let tc2 := traced (AssignmentSliceNode.subnode_expression self) tc1 in
  let lower := refined_if_present (AssignmentSliceNode.subnode_lower self) tc2 in
  let tc3 := traced_if_present (AssignmentSliceNode.subnode_lower self) tc2 in
  let upper := refined_if_present (AssignmentSliceNode.subnode_upper self) tc3 in
  let tc4 := traced_if_present (AssignmentSliceNode.subnode_upper self) tc3 in
  let r := AssignmentSliceNode.source_ref self in
  StatementAssignmentSlice.computeStatement (tc, self)
  = if willRaiseException source BaseException then
      inr (outcome
             (Some (makeStatementExpressionOnlyReplacementNode source
                      (StatementAssignmentSlice
                         (AssignmentSliceNode.set_source source self))))
             (Some "new_raise") (Some raise_in_assigned_value),
           (tc1, AssignmentSliceNode.set_source source self))
    else if willRaiseException subject BaseException then
      new_raise raise_in_sliced_value
        (makeStatementOnlyNodesFromExpressions [Some source; Some subject])
        (tc2, AssignmentSliceNode.make source subject
                (AssignmentSliceNode.subnode_lower self)
                (AssignmentSliceNode.subnode_upper self) r)
    else if willRaise_if_present lower then
      new_raise raise_in_lower_value
        (makeStatementOnlyNodesFromExpressions
           [Some source; Some subject; lower])
        (tc3, AssignmentSliceNode.make source subject lower
                (AssignmentSliceNode.subnode_upper self) r)
    else if willRaise_if_present upper then
      new_raise raise_in_upper_value
        (makeStatementOnlyNodesFromExpressions
           [Some source; Some subject; lower; upper])
        (tc4, AssignmentSliceNode.make source subject lower upper r)
    else
      withTraceCollection
        (computeExpressionSetSlice subject
           (AssignmentSliceNode.make source subject lower upper r)
           lower upper source)
        (tc4, AssignmentSliceNode.make source subject lower upper r).
Proof.
  destruct self as [v x [a|] [b|] r]; cbv zeta; node_simpl;
    unfold StatementAssignmentSlice.computeStatement;
    repeat first
      [ run_step
      | progress node_simpl
      | match goal with
        | |- context [if willRaiseException ?e ?c then _ else _] =>
            destruct (willRaiseException e c) eqn:?
        end ];
    reflexivity.
Qed.

Lemma del_run (self : DelSliceNode.t) (tc : TraceCollection) :
  let subject := refined (DelSliceNode.subnode_expression self) tc in
  let tc1 := traced (DelSliceNode.subnode_expression self) tc in
  let lower := refined_if_present (DelSliceNode.subnode_lower self) tc1 in
  let tc2 := traced_if_present (DelSliceNode.subnode_lower self) tc1 in
  let upper := refined_if_present (DelSliceNode.subnode_upper self) tc2 in
  let tc3 := traced_if_present (DelSliceNode.subnode_upper self) tc2 in
  let r := DelSliceNode.source_ref self in
  StatementDelSlice.computeStatement (tc, self)
  = if willRaiseException subject BaseException then
      inr (outcome
             (Some (makeStatementExpressionOnlyReplacementNode subject
                      (StatementDelSlice
                         (DelSliceNode.set_expression subject self))))
             (Some "new_raise") (Some del_raise_in_sliced_value),
           (tc1, DelSliceNode.set_expression subject self))
    else if willRaise_if_present lower then
      new_raise del_raise_in_lower_value
        (makeStatementOnlyNodesFromExpressions [Some subject; lower])
        (tc2, DelSliceNode.make subject lower
                (DelSliceNode.subnode_upper self) r)
    else if willRaise_if_present upper then
      new_raise del_raise_in_upper_value
        (makeStatementOnlyNodesFromExpressions [Some subject; lower; upper])
        (tc3, DelSliceNode.make subject lower upper r)
    else
      withTraceCollection
        (computeExpressionDelSlice subject
           (DelSliceNode.make subject lower upper r) lower upper)
        (tc3, DelSliceNode.make subject lower upper r).
Proof.
  destruct self as [x [a|] [b|] r]; cbv zeta; node_simpl;
    unfold StatementDelSlice.computeStatement;
    repeat first
      [ run_step
      | progress node_simpl
      | match goal with
        | |- context [if willRaiseException ?e ?c then _ else _] =>
            destruct (willRaiseException e c) eqn:?
        end ];
    reflexivity.
Qed.

End StatementCases.

(** Unfolds the outcome of a certain raise made with the helpers of the
    specification. *)
Ltac spec_new_raise :=
  unfold new_raise, liftFallible, bind, ret;
  cbn [makeStatementOnlyNodesFromExpressions
       makeStatementExpressionOnlyReplacementNode FromSpec.helpers
       FromSpec.makeStatementOnlyNodesFromExpressions
       FromSpec.makeStatementsExpressionOnly
       FromSpec.makeStatementExpressionOnlyReplacementNode] in *.

(** ** The slice assignment statement, further *)
Section AssignmentFurther.
Context {collaborators : Collaborators}.

Local Abbreviation assignment_step :=
  (StatementAssignmentSlice.computeStatement (helpers := FromSpec.helpers)).

(** X1. The rewrite of a slice assignment faults exactly when neither the
    refined value nor the refined subject is proven to certainly raise, the
    lower slot is absent and the refined upper bound is proven to certainly
    raise; the fault is then the absent slot, and in every other case the
    rewrite answers. *)
Theorem assignment_rewrite_faults_iff (self : AssignmentSliceNode.t)
    (tc : TraceCollection) :
  let source := refined (AssignmentSliceNode.subnode_source self) tc in
  let tc1 := traced (AssignmentSliceNode.subnode_source self) tc in
  let subject := refined (AssignmentSliceNode.subnode_expression self) tc1 in
  let tc2 := traced (AssignmentSliceNode.subnode_expression self) tc1 in
  let upper := refined_if_present (AssignmentSliceNode.subnode_upper self) tc2 in
  (is_ok (assignment_step (tc, self)) = false
   <-> (willRaiseException source BaseException = false
        /\ willRaiseException subject BaseException = false
        /\ AssignmentSliceNode.subnode_lower self = None
        /\ willRaise_if_present upper = true))
  /\ (forall fault, assignment_step (tc, self) = inl fault ->
                    fault = RequiredSlotAbsent).
Proof.
  cbv zeta. rewrite assignment_run.
  destruct self as [v x [a|] [b|] r]; node_simpl;
    repeat match goal with
    | |- context [if willRaiseException ?e ?c then _ else _] =>
        destruct (willRaiseException e c) eqn:?
    end;
    spec_new_raise; try rewrite run_withTraceCollection; cbn [is_ok];
    (split;
     [ first
         [ split;
           [ intros H; discriminate H
           | intros H; decompose [and] H; discriminate ]
         | split; [intros _; repeat split; reflexivity | reflexivity] ]
     | intros fault H; now inversion H ]).
Qed.


(** X2. Whenever the rewrite of a slice assignment answers: if a child held
    by the node afterwards is proven to certainly raise, the outcome is
    tagged "new_raise" and its replacement evaluates, in evaluation order,
    the first children the node now holds, the last of them proven to
    certainly raise and none before it; if no child held afterwards is
    proven to certainly raise, the outcome is the answer of the subject's
    hook for the node and the children it now holds. *)
Theorem assignment_replacement_ends_at_raising_child
    (self : AssignmentSliceNode.t) (tc : TraceCollection)
    (out : StatementOutcome) (w : World AssignmentSliceNode.t) :
  assignment_step (tc, self) = inr (out, w) ->
  (existsb (fun child => willRaiseException child BaseException)
     (assignmentChildren (snd w)) = true ->
   change_tags out = Some "new_raise"
   /\ exists (result : Statement) (steps : list Expression)
             (last : Expression) (rest : list Expression),
        new_node out = Some result
        /\ evaluatedForEffect result = Some (steps ++ [last])%list
        /\ assignmentChildren (snd w) = (steps ++ last :: rest)%list
        /\ willRaiseException last BaseException = true
        /\ forallb (fun child => negb (willRaiseException child BaseException))
             steps = true)
  /\
  (existsb (fun child => willRaiseException child BaseException)
     (assignmentChildren (snd w)) = false ->
   exists tc' : TraceCollection,
     computeExpressionSetSlice
       (AssignmentSliceNode.subnode_expression (snd w)) (snd w)
       (AssignmentSliceNode.subnode_lower (snd w))
       (AssignmentSliceNode.subnode_upper (snd w))
       (AssignmentSliceNode.subnode_source (snd w)) tc'
     = (out, fst w)).
Proof.
  rewrite assignment_run.
  destruct self as [v x [a|] [b|] r]; node_simpl;
    repeat match goal with
    | |- context [if willRaiseException ?e ?c then _ else _] =>
        destruct (willRaiseException e c) eqn:?
    end;
    spec_new_raise; try rewrite run_withTraceCollection;
    intros H; try discriminate H; inversion H; subst; clear H;
    unfold assignmentChildren;
    cbn [snd fst change_tags new_node app existsb]; node_simpl;
    cbn [app existsb];
    repeat match goal with
    | R : willRaiseException _ _ = _ |- _ => rewrite R
    end;
    cbn [orb];
    (split;
     [ first
         [ discriminate
         | intros _; split; [reflexivity|];
           eexists; eexists; eexists; eexists;
           split; [reflexivity|];
           unfold FromSpec.makeStatementExpressionOnlyReplacementNode,
             evaluatedForEffect;
           cbn [allExpressionOnly expressionOnly];
           match goal with
           | |- Some ?l = Some (?s ++ [?e])%list /\ _ =>
               let s' := eval cbn in (removelast l) in
               let e' := eval cbn in (List.last l (ExpressionConstantNoneRef 0)) in
               unify s s'; unify e e'
           end;
           cbn [app forallb];
           repeat split; try reflexivity; try assumption;
           repeat match goal with
           | R : willRaiseException _ _ = _ |- _ => rewrite R
           end; reflexivity ]
     | first
         [ discriminate
         | intros _; eexists; apply surjective_pairing ] ]).
Qed.
End AssignmentFurther.

Lemma assignment_replacement_ends_at_raising_child_witness :
  change_tags
    (outcome
       (Some (StatementsSequence
                [StatementExpressionOnly Sample.v 10;
                 StatementExpressionOnly Sample.x 11;
                 StatementExpressionOnly Sample.a 12] 10))
       (Some "new_raise") (Some raise_in_lower_value))
  = Some "new_raise".
Proof.
  refine (proj1 (proj1 (assignment_replacement_ends_at_raising_child
                          (collaborators := Sample.collaborators 270 [3])
                          Sample.assign_both 0
                          (w := (3, Sample.assign_both)) _) _)).
  - reflexivity.
  - reflexivity.
Defined.


Section AssignmentAnyHelpers.
Context {collaborators : Collaborators} {helpers : NodeMakingHelpers}.

(** X3. A slice assignment refines no child after the one proven to
    certainly raise: when the rewrite answers after the refined value, the
    refined subject or the refined lower bound was proven to certainly
    raise, the slots after that child still hold what they held and the
    trace collection is the one left by the refinements up to that child. *)
Theorem assignment_raise_leaves_later_children_alone
    (self : AssignmentSliceNode.t) (tc : TraceCollection) :
  let source := refined (AssignmentSliceNode.subnode_source self) tc in
  let tc1 := traced (AssignmentSliceNode.subnode_source self) tc in
  let subject := refined (AssignmentSliceNode.subnode_expression self) tc1 in
  let tc2 := traced (AssignmentSliceNode.subnode_expression self) tc1 in
  let lower := refined_if_present (AssignmentSliceNode.subnode_lower self) tc2 in
  let tc3 := traced_if_present (AssignmentSliceNode.subnode_lower self) tc2 in
  let r := AssignmentSliceNode.source_ref self in
  (willRaiseException source BaseException = true ->
   exists out : StatementOutcome,
     StatementAssignmentSlice.computeStatement (tc, self)
     = inr (out,
            (tc1, AssignmentSliceNode.make source
                    (AssignmentSliceNode.subnode_expression self)
                    (AssignmentSliceNode.subnode_lower self)
                    (AssignmentSliceNode.subnode_upper self) r)))
  /\
  (willRaiseException source BaseException = false ->
   willRaiseException subject BaseException = true ->
   forall (out : StatementOutcome) (w : World AssignmentSliceNode.t),
     StatementAssignmentSlice.computeStatement (tc, self) = inr (out, w) ->
     w = (tc2, AssignmentSliceNode.make source subject
                 (AssignmentSliceNode.subnode_lower self)
                 (AssignmentSliceNode.subnode_upper self) r))
  /\
  (willRaiseException source BaseException = false ->
   willRaiseException subject BaseException = false ->
   willRaise_if_present lower = true ->
   forall (out : StatementOutcome) (w : World AssignmentSliceNode.t),
     StatementAssignmentSlice.computeStatement (tc, self) = inr (out, w) ->
     w = (tc3, AssignmentSliceNode.make source subject lower
                 (AssignmentSliceNode.subnode_upper self) r)).
Proof.
  cbv zeta. rewrite assignment_run.
  split; [|split].
  - intros ->. destruct self. eexists. reflexivity.
  - intros -> ->. unfold new_raise, liftFallible, bind, ret.
    intros out w H.
    destruct (makeStatementOnlyNodesFromExpressions _); [discriminate|].
    now inversion H.
  - intros -> -> ->. unfold new_raise, liftFallible, bind, ret.
    intros out w H.
    destruct (makeStatementOnlyNodesFromExpressions _); [discriminate|].
    now inversion H.
Qed.

(** X4. When none of the refined children of a slice assignment is proven
    to certainly raise, the rewrite answers what the slice assignment hook of
    the refined subject answers; the hook is given the node with the refined
    children in its slots, the refined lower and upper bounds and the refined
    value, on the trace collection left by refining value, subject, lower and
    upper in this order. *)
Theorem assignment_outcome_is_hook_outcome
    (self : AssignmentSliceNode.t) (tc : TraceCollection) :
  let source := refined (AssignmentSliceNode.subnode_source self) tc in
  let tc1 := traced (AssignmentSliceNode.subnode_source self) tc in
  let subject := refined (AssignmentSliceNode.subnode_expression self) tc1 in
  let tc2 := traced (AssignmentSliceNode.subnode_expression self) tc1 in
  let lower := refined_if_present (AssignmentSliceNode.subnode_lower self) tc2 in
  let tc3 := traced_if_present (AssignmentSliceNode.subnode_lower self) tc2 in
  let upper := refined_if_present (AssignmentSliceNode.subnode_upper self) tc3 in
  let tc4 := traced_if_present (AssignmentSliceNode.subnode_upper self) tc3 in
  let self' :=
    AssignmentSliceNode.make source subject lower upper
      (AssignmentSliceNode.source_ref self) in
  willRaiseException source BaseException = false ->
  willRaiseException subject BaseException = false ->
  willRaise_if_present lower = false ->
  willRaise_if_present upper = false ->
  StatementAssignmentSlice.computeStatement (tc, self)
  = inr (fst (computeExpressionSetSlice subject self' lower upper source tc4),
         (snd (computeExpressionSetSlice subject self' lower upper source tc4),
          self')).
Proof.
  cbv zeta. rewrite assignment_run. intros -> -> -> ->.
  apply run_withTraceCollection.
Qed.

End AssignmentAnyHelpers.

Lemma assignment_outcome_is_hook_outcome_witness :
  StatementAssignmentSlice.computeStatement
    (collaborators := Sample.collaborators 270 [])
    (helpers := FromSpec.helpers)
    (0, AssignmentSliceNode.make Sample.v Sample.x (Some Sample.a)
          (Some Sample.b_unoptimized) 20)
  = inr (unchanged (Some (StatementAssignmentSlice Sample.assign_both)),
         (4, Sample.assign_both)).
Proof.
  exact (assignment_outcome_is_hook_outcome
           (collaborators := Sample.collaborators 270 [])
           (helpers := FromSpec.helpers)
           (AssignmentSliceNode.make Sample.v Sample.x (Some Sample.a)
              (Some Sample.b_unoptimized) 20) 0
           eq_refl eq_refl eq_refl eq_refl).
Defined.


(** ** The slice deletion statement, further *)
Section DelFurther.
Context {collaborators : Collaborators}.

Local Abbreviation del_step :=
  (StatementDelSlice.computeStatement (helpers := FromSpec.helpers)).

(** X5. The rewrite of a slice deletion faults exactly when the refined
    subject is not proven to certainly raise, the lower slot is absent and
    the refined upper bound is proven to certainly raise; the fault is then
    the absent slot, and in every other case the rewrite answers. *)
Theorem del_rewrite_faults_iff (self : DelSliceNode.t) (tc : TraceCollection) :
  let subject := refined (DelSliceNode.subnode_expression self) tc in
  let tc1 := traced (DelSliceNode.subnode_expression self) tc in
  let upper := refined_if_present (DelSliceNode.subnode_upper self) tc1 in
  (is_ok (del_step (tc, self)) = false
   <-> (willRaiseException subject BaseException = false
        /\ DelSliceNode.subnode_lower self = None
        /\ willRaise_if_present upper = true))
  /\ (forall fault, del_step (tc, self) = inl fault ->
                    fault = RequiredSlotAbsent).
Proof.
  cbv zeta. rewrite del_run.
  destruct self as [x [a|] [b|] r]; node_simpl;
    repeat match goal with
    | |- context [if willRaiseException ?e ?c then _ else _] =>
        destruct (willRaiseException e c) eqn:?
    end;
    spec_new_raise; try rewrite run_withTraceCollection; cbn [is_ok];
    (split;
     [ first
         [ split;
           [ intros H; discriminate H
           | intros H; decompose [and] H; discriminate ]
         | split; [intros _; repeat split; reflexivity | reflexivity] ]
     | intros fault H; now inversion H ]).
Qed.

(** X6. Whenever the rewrite of a slice deletion answers: if a child held
    by the node afterwards is proven to certainly raise, the outcome is
    tagged "new_raise" and its replacement evaluates, in evaluation order,
    the first children the node now holds, the last of them proven to
    certainly raise and none before it; if no child held afterwards is
    proven to certainly raise, the outcome is the answer of the subject's
    hook for the node and the children it now holds. *)
Theorem del_replacement_ends_at_raising_child
    (self : DelSliceNode.t) (tc : TraceCollection)
    (out : StatementOutcome) (w : World DelSliceNode.t) :
  del_step (tc, self) = inr (out, w) ->
  (existsb (fun child => willRaiseException child BaseException)
     (delChildren (snd w)) = true ->
   change_tags out = Some "new_raise"
   /\ exists (result : Statement) (steps : list Expression)
             (last : Expression) (rest : list Expression),
        new_node out = Some result
        /\ evaluatedForEffect result = Some (steps ++ [last])%list
        /\ delChildren (snd w) = (steps ++ last :: rest)%list
        /\ willRaiseException last BaseException = true
        /\ forallb (fun child => negb (willRaiseException child BaseException))
             steps = true)
  /\
  (existsb (fun child => willRaiseException child BaseException)
     (delChildren (snd w)) = false ->
   exists tc' : TraceCollection,
     computeExpressionDelSlice
       (DelSliceNode.subnode_expression (snd w)) (snd w)
       (DelSliceNode.subnode_lower (snd w))
       (DelSliceNode.subnode_upper (snd w)) tc'
     = (out, fst w)).
Proof.
  rewrite del_run.
  destruct self as [x [a|] [b|] r]; node_simpl;
    repeat match goal with
    | |- context [if willRaiseException ?e ?c then _ else _] =>
        destruct (willRaiseException e c) eqn:?
    end;
    spec_new_raise; try rewrite run_withTraceCollection;
    intros H; try discriminate H; inversion H; subst; clear H;
    unfold delChildren;
    cbn [snd fst change_tags new_node app existsb]; node_simpl;
    cbn [app existsb];
    repeat match goal with
    | R : willRaiseException _ _ = _ |- _ => rewrite R
    end;
    cbn [orb];
    (split;
     [ first
         [ discriminate
         | intros _; split; [reflexivity|];
           eexists; eexists; eexists; eexists;
           split; [reflexivity|];
           unfold FromSpec.makeStatementExpressionOnlyReplacementNode,
             evaluatedForEffect;
           cbn [allExpressionOnly expressionOnly];
           match goal with
           | |- Some ?l = Some (?s ++ [?e])%list /\ _ =>
               let s' := eval cbn in (removelast l) in
               let e' := eval cbn in (List.last l (ExpressionConstantNoneRef 0)) in
               unify s s'; unify e e'
           end;
           cbn [app forallb];
           repeat split; try reflexivity; try assumption;
           repeat match goal with
           | R : willRaiseException _ _ = _ |- _ => rewrite R
           end; reflexivity ]
     | first
         [ discriminate
         | intros _; eexists; apply surjective_pairing ] ]).
Qed.

End DelFurther.

Lemma del_replacement_ends_at_raising_child_witness :
  change_tags
    (outcome
       (Some (StatementsSequence
                [StatementExpressionOnly Sample.x 11;
                 StatementExpressionOnly Sample.a 12] 11))
       (Some "new_raise") (Some del_raise_in_lower_value))
  = Some "new_raise".
Proof.
  refine (proj1 (proj1 (del_replacement_ends_at_raising_child
                          (collaborators := Sample.collaborators 270 [3])
                          Sample.del_both 0
                          (w := (2, Sample.del_both)) _) _)).
  - reflexivity.
  - reflexivity.
Defined.

Section DelAnyHelpers.
Context {collaborators : Collaborators} {helpers : NodeMakingHelpers}.

(** X7. A slice deletion refines no child after the one proven to
    certainly raise: after a refined subject proven to certainly raise the
    lower and upper slots hold what they held, after a refined lower bound
    proven to certainly raise the upper slot does, and the trace collection
    is the one left by the refinements up to that child. *)
Theorem del_raise_leaves_later_children_alone
    (self : DelSliceNode.t) (tc : TraceCollection) :
  let subject := refined (DelSliceNode.subnode_expression self) tc in
  let tc1 := traced (DelSliceNode.subnode_expression self) tc in
  let lower := refined_if_present (DelSliceNode.subnode_lower self) tc1 in
  let tc2 := traced_if_present (DelSliceNode.subnode_lower self) tc1 in
  let r := DelSliceNode.source_ref self in
  (willRaiseException subject BaseException = true ->
   exists out : StatementOutcome,
     StatementDelSlice.computeStatement (tc, self)
     = inr (out,
            (tc1, DelSliceNode.make subject
                    (DelSliceNode.subnode_lower self)
                    (DelSliceNode.subnode_upper self) r)))
  /\
  (willRaiseException subject BaseException = false ->
   willRaise_if_present lower = true ->
   forall (out : StatementOutcome) (w : World DelSliceNode.t),
     StatementDelSlice.computeStatement (tc, self) = inr (out, w) ->
     w = (tc2, DelSliceNode.make subject lower
                 (DelSliceNode.subnode_upper self) r)).
Proof.
  cbv zeta. rewrite del_run.
  split.
  - intros ->. destruct self. eexists. reflexivity.
  - intros -> ->. unfold new_raise, liftFallible, bind, ret.
    intros out w H.
    destruct (makeStatementOnlyNodesFromExpressions _); [discriminate|].
    now inversion H.
Qed.

(** X8. When none of the refined children of a slice deletion is proven to
    certainly raise, the rewrite answers what the slice deletion hook of the
    refined subject answers; the hook is given the node with the refined
    children in its slots and the refined lower and upper bounds (the upper
    one as read back from its slot), on the trace collection left by
    refining subject, lower and upper in this order. *)
Theorem del_outcome_is_hook_outcome
    (self : DelSliceNode.t) (tc : TraceCollection) :
  let subject := refined (DelSliceNode.subnode_expression self) tc in
  let tc1 := traced (DelSliceNode.subnode_expression self) tc in
  let lower := refined_if_present (DelSliceNode.subnode_lower self) tc1 in
  let tc2 := traced_if_present (DelSliceNode.subnode_lower self) tc1 in
  let upper := refined_if_present (DelSliceNode.subnode_upper self) tc2 in
  let tc3 := traced_if_present (DelSliceNode.subnode_upper self) tc2 in
  let self' :=
    DelSliceNode.make subject lower upper (DelSliceNode.source_ref self) in
  willRaiseException subject BaseException = false ->
  willRaise_if_present lower = false ->
  willRaise_if_present upper = false ->
  StatementDelSlice.computeStatement (tc, self)
  = inr (fst (computeExpressionDelSlice subject self' lower upper tc3),
         (snd (computeExpressionDelSlice subject self' lower upper tc3),
          self')).
Proof.
  cbv zeta. rewrite del_run. intros -> -> ->.
  apply run_withTraceCollection.
Qed.

End DelAnyHelpers.

Lemma del_outcome_is_hook_outcome_witness :
  StatementDelSlice.computeStatement
    (collaborators := Sample.collaborators 270 [])
    (helpers := FromSpec.helpers) (0, Sample.del_unoptimized)
  = inr (unchanged (Some (StatementDelSlice Sample.del_both)),
         (3, Sample.del_both)).
Proof.
  exact (del_outcome_is_hook_outcome
           (collaborators := Sample.collaborators 270 [])
           (helpers := FromSpec.helpers) Sample.del_unoptimized 0
           eq_refl eq_refl eq_refl).
Defined.

(** ** The slice constructions, further *)

(** X9. The may-raise answer of a tree of nested slice constructions is
    true exactly when one of the arguments that are not slice constructions
    themselves, at whatever depth, answers true; so such a tree is without
    side effects exactly when none of these arguments may raise. *)
Theorem mayRaiseException_of_nested_slices (collaborators : Collaborators)
    (node : Expression) (exception_type : ExceptionType) :
  mayRaiseException node exception_type
  = existsb (fun argument => mayRaiseException_elsewhere argument exception_type)
      (builtinSliceArguments node)
  /\ (ExpressionBuiltinSliceMixin.mayHaveSideEffects node = false
      <-> Forall (fun argument =>
                    mayRaiseException_elsewhere argument BaseException = false)
            (builtinSliceArguments node)).
Proof.
  assert (Nested : forall ty,
    mayRaiseException node ty
    = existsb (fun argument => mayRaiseException_elsewhere argument ty)
        (builtinSliceArguments node)).
  { intros ty.
    induction node as [r|e _ l u r|s IHs t IHt p IHp r|s IHs t IHt r|n r];
      cbn [mayRaiseException builtinSliceArguments existsb];
      rewrite ?orb_false_r; try reflexivity.
    - now rewrite !existsb_app, IHs, IHt, IHp, orb_assoc.
    - now rewrite existsb_app, IHs, IHt. }
  split; [apply Nested|].
  unfold ExpressionBuiltinSliceMixin.mayHaveSideEffects. rewrite Nested.
  rewrite Forall_forall. split.
  - intros H argument Hin.
    destruct (mayRaiseException_elsewhere argument BaseException) eqn:E;
      [|reflexivity].
    assert (existsb (fun a => mayRaiseException_elsewhere a BaseException)
              (builtinSliceArguments node) = true) as C
      by (apply existsb_exists; now exists argument).
    congruence.
  - intros H.
    destruct (existsb _ (builtinSliceArguments node)) eqn:E; [|reflexivity].
    apply existsb_exists in E. destruct E as [argument [Hin E]].
    rewrite (H argument Hin) in E. discriminate.
Qed.

(** X10. The may-raise answer of the node the factory makes is true exactly
    when a supplied start, stop or step answers true, or a start or stop was
    omitted and the constant none node put in its place answers true; an
    omitted step adds nothing. *)
Theorem makeExpressionBuiltinSlice_mayRaiseException
    (collaborators : Collaborators) (start stop step : option Expression)
    (source_ref : SourceRef) (exception_type : ExceptionType) :
  mayRaiseException (makeExpressionBuiltinSlice start stop step source_ref)
    exception_type
  = (match start with
     | Some value => mayRaiseException value exception_type
     | None =>
         mayRaiseException_elsewhere (ExpressionConstantNoneRef source_ref)
           exception_type
     end
     || match stop with
        | Some value => mayRaiseException value exception_type
        | None =>
            mayRaiseException_elsewhere (ExpressionConstantNoneRef source_ref)
              exception_type
        end
     || match step with
        | Some value => mayRaiseException value exception_type
        | None => false
        end)%bool.
Proof.
  destruct start, stop, step; cbn; rewrite ?orb_false_r; reflexivity.
Qed.

(** X11. Constructing a slice lookup again from the children a constructed
    one holds gives the same node: the conversion of its bounds has nothing
    left to convert. *)
Theorem slice_lookup_construction_is_idempotent (collaborators : Collaborators)
    (expression : Expression) (lower upper : option Expression)
    (source_ref : SourceRef) (self : SliceLookupNode.t) :
  ExpressionSliceLookup.__init__ expression lower upper source_ref = inr self ->
  ExpressionSliceLookup.__init__
    (SliceLookupNode.subnode_expression self)
    (ExpressionSliceLookup.getLower self)
    (ExpressionSliceLookup.getUpper self)
    (SliceLookupNode.source_ref self)
  = inr self.
Proof.
  unfold ExpressionSliceLookup.__init__.
  destruct (python_version <? 300)%Z; [|discriminate].
  intros E. injection E as <-.
  cbn [SliceLookupNode.subnode_expression SliceLookupNode.source_ref
       ExpressionSliceLookup.getLower ExpressionSliceLookup.getUpper
       SliceLookupNode.subnode_lower SliceLookupNode.subnode_upper].
  change (setChild ExpressionSliceLookup.checkers "lower")
    with convertNoneConstantToNone.
  change (setChild ExpressionSliceLookup.checkers "upper")
    with convertNoneConstantToNone.
  assert (Twice : forall node,
    convertNoneConstantToNone (convertNoneConstantToNone node)
    = convertNoneConstantToNone node).
  { intros [value|]; [|reflexivity]. cbn.
    destruct (isExpressionConstantNoneRef value) eqn:E; [reflexivity|].
    cbn. now rewrite E. }
  now rewrite !Twice.
Qed.

Lemma slice_lookup_construction_is_idempotent_witness :
  ExpressionSliceLookup.__init__
    (collaborators := Sample.collaborators 270 [])
    Sample.x None (Some Sample.b) 40
  = inr (SliceLookupNode.make Sample.x None (Some Sample.b) 40).
Proof.
  exact (slice_lookup_construction_is_idempotent
           (Sample.collaborators 270 [])
           Sample.x (Some (ExpressionConstantNoneRef 41)) (Some Sample.b) 40
           eq_refl).
Defined.

(** ** The description of a certain raise *)


